(** * COVIDx CT dataset constructor: the notebook [create_COVIDx_CT.ipynb]

    A shallow embedding of the notebook's driver cells (manifest
    accumulation, image-count printing) and of its verification cell, with
    the properties of the specification stated and proved over it. *)

From Stdlib Require Import String Ascii List ZArith Arith Bool Lia DecimalString.
Import ListNotations.
Open Scope string_scope.

(** ** Python primitives used by the notebook *)

Module Py.

(** The exceptions the notebook's cells can end with. *)
Inductive exn : Type :=
| ValueError (msg : string)        (* raise ValueError(msg) *)
| UnpackError (got : nat)          (* not enough values to unpack (expected 2, got n) *)
| IndexError                       (* string index out of range *)
| TypeError                        (* list indexed by a non-scalar array *)
| OSError (path : string)          (* open() failed *)
| ProcessorError (msg : string).   (* raised inside a source processor *)

(** Observable actions of a cell, in the order they happen. *)
Inductive event : Type :=
| EvGlob (pattern : string)
| EvOpen (path : string)
| EvExists (path : string)
| EvPrint (text : string).

(** State and exception monad: the state reached when an exception is
    raised is kept, as the notebook's globals are. *)
Definition M (S A : Type) : Type := S -> S * (exn + A).

Definition ret {S A} (a : A) : M S A := fun s => (s, inr a).

Definition bind {S A B} (m : M S A) (k : A -> M S B) : M S B :=
  fun s =>
    match m s with
    | (s', inl e) => (s', inl e)
    | (s', inr a) => k a s'
    end.

Definition raise {S A} (e : exn) : M S A := fun s => (s, inl e).

Definition modify {S} (f : S -> S) : M S unit := fun s => (f s, inr tt).

Definition lift {S A} (r : exn + A) : M S A := fun s => (s, r).

(** [for x in l: body x] *)
Fixpoint for_each {S A} (l : list A) (body : A -> M S unit) : M S unit :=
  match l with
  | [] => ret tt
  | x :: r => bind (body x) (fun _ => for_each r body)
  end.

(** [for x in l: acc = body x acc] with the loop variables threaded. *)
Fixpoint for_fold {S A T} (l : list A) (body : A -> T -> M S T) (acc : T)
  : M S T :=
  match l with
  | [] => ret acc
  | x :: r => bind (body x acc) (for_fold r body)
  end.

(** *** Strings *)

(** [s[0]] *)
Definition index_first (s : string) : exn + ascii :=
  match s with
  | EmptyString => inl IndexError
  | String c _ => inr c
  end.

(** [s[-1]] *)
Fixpoint index_last (s : string) : exn + ascii :=
  match s with
  | EmptyString => inl IndexError
  | String c EmptyString => inr c
  | String _ r => index_last r
  end.

Definition str1 (c : ascii) : string := String c EmptyString.

(** [str.isspace] on one character (code points below 256). *)
Definition is_space (c : ascii) : bool :=
  let n := nat_of_ascii c in
  ((9 <=? n)%nat && (n <=? 13)%nat) || ((28 <=? n)%nat && (n <=? 32)%nat)
  || (n =? 133)%nat || (n =? 160)%nat.

Definition newline : ascii := ascii_of_nat 10.

Fixpoint lstrip_nl (l : list ascii) : list ascii :=
  match l with
  | c :: r => if Ascii.eqb c newline then lstrip_nl r else l
  | [] => []
  end.

(** [s.strip('\n')] *)
Definition strip_nl (s : string) : string :=
  string_of_list_ascii
    (rev (lstrip_nl (rev (lstrip_nl (list_ascii_of_string s))))).

(** [s.split()]: maximal runs of non-whitespace characters. *)
Fixpoint split_ws_from (cur : string) (s : string) : list string :=
  match s with
  | EmptyString => if String.eqb cur "" then [] else [cur]
  | String c r =>
      if is_space c
      then (if String.eqb cur "" then split_ws_from "" r
            else cur :: split_ws_from "" r)
      else split_ws_from (cur ++ str1 c) r
  end.

Definition split_ws (s : string) : list string := split_ws_from "" s.

(** [s.split(sep)[0]]: the text before the first [sep]. *)
Fixpoint split_first (sep : ascii) (s : string) : string :=
  match s with
  | EmptyString => EmptyString
  | String c r => if Ascii.eqb c sep then EmptyString
                  else String c (split_first sep r)
  end.

(** [os.path.basename(p)]: the text after the last slash. *)
Fixpoint basename_from (cur : string) (p : string) : string :=
  match p with
  | EmptyString => cur
  | String c r => if Ascii.eqb c "/" then basename_from "" r
                  else basename_from (cur ++ str1 c) r
  end.

Definition basename (p : string) : string := basename_from "" p.

Definition starts_with_slash (s : string) : bool :=
  match s with
  | String c _ => Ascii.eqb c "/"
  | EmptyString => false
  end.

Definition ends_with_slash (s : string) : bool :=
  match index_last s with
  | inr c => Ascii.eqb c "/"
  | inl _ => false
  end.

(** [os.path.join(a, b)] (posixpath). *)
Definition path_join (a b : string) : string :=
  if starts_with_slash b then b
  else if String.eqb a "" || ends_with_slash a then a ++ b
  else a ++ "/" ++ b.

(** [str(n)] for a non-negative integer. *)
Definition str_nat (n : nat) : string :=
  NilEmpty.string_of_uint (Nat.to_uint n).

(** [fname, cls = tokens] *)
Definition unpack2 (tokens : list string) : exn + (string * string) :=
  match tokens with
  | [a; b] => inr (a, b)
  | _ => inl (UnpackError (length tokens))
  end.

(** An index expression of [list.__getitem__]: an integer, or a numpy
    boolean array (which a list cannot be indexed with). *)
Inductive index : Type :=
| IdxInt (i : Z)
| IdxMask (mask : list bool).

Definition list_getitem {A} (l : list A) (i : index) : exn + A :=
  match i with
  | IdxMask _ => inl TypeError
  | IdxInt z =>
      let n := Z.of_nat (length l) in
      let z' := if (z <? 0)%Z then (z + n)%Z else z in
      if ((z' <? 0) || (n <=? z'))%Z then inl IndexError
      else match nth_error l (Z.to_nat z') with
           | Some a => inr a
           | None => inl IndexError
           end
  end.

(** [any(c.isspace() for c in s)] *)
Fixpoint has_space (s : string) : bool :=
  match s with
  | EmptyString => false
  | String c r => is_space c || has_space r
  end.

(** [c in s] *)
Fixpoint has_char (c : ascii) (s : string) : bool :=
  match s with
  | EmptyString => false
  | String d r => Ascii.eqb d c || has_char c r
  end.

End Py.

Import Py.

Declare Scope py_scope.
Delimit Scope py_scope with py.
Notation "x <- m ;; k" := (bind m (fun x => k))
  (at level 61, m at next level, right associativity) : py_scope.
Notation "' pat <- m ;; k" := (bind m (fun x => match x with pat => k end))
  (at level 61, pat pattern, m at next level, right associativity) : py_scope.
Notation "m ;; k" := (bind m (fun _ => k))
  (at level 61, right associativity) : py_scope.
Open Scope py_scope.

(** ** Data preparation cells (the driver) *)

Module Driver.

(** The source processors the notebook calls, in the order of its cells. *)
Inductive source : Type :=
| CNCB                         (* cncb.process_cncb_data *)
| RadiopaediaCoronacasesSeg    (* rc.process_radiopaedia_and_coronacases_seg_data *)
| Radiopaedia                  (* radiopaedia.process_radiopaedia_data *)
| LIDC_IDRI                    (* lidc_idri.process_lidc_idri_data *)
| COVID_19_20                  (* covid_19_20.process_covid_19_20_data *)
| TCIA_COVID                   (* tcia_covid.process_tcia_covid_data *)
| COVID_CTset                  (* covid_ctset.process_covid_ctset_data *)
| ICTCF                        (* ictcf.process_ictcf_data *)
| COVID_CT_MD                  (* cctmd.process_covid_ct_md_data *)
| STOIC                        (* stoic.process_stoic_data *)
| StonyBrook                   (* sbrook.process_stonybrook_data *)
| MosMedSeg                    (* mosmed.process_mosmed_seg_data *)
| MosMedUnseg.                 (* mosmed.process_mosmed_unseg_data *)

(** What a processor returns: [fnames, cls]. *)
Definition output : Type := list string * list Z.

(** The notebook's globals [filenames] and [classes], and the processors
    called so far. *)
Record manifest : Type := {
  filenames : list string;
  classes : list Z;
  invoked : list source
}.

(** [filenames, classes = [], []] *)
Definition cell_lists : manifest :=
  {| filenames := []; classes := []; invoked := [] |}.

Definition OUTPUT_DIR (DATASET_VERSION : string) : string :=
  "data/COVIDx_CT-" ++ DATASET_VERSION.

Section Cells.

(** The processors are modules outside the notebook: each is called with
    the output directory and either returns its lists or raises. *)
Variable process : source -> string -> exn + output.
Variable DATASET_VERSION : string.

Definition call (s : source) : M manifest output :=
  fun st =>
    ({| filenames := filenames st; classes := classes st;
        invoked := invoked st ++ [s] |},
     process s (OUTPUT_DIR DATASET_VERSION)).

(** [filenames.extend(fnames)] *)
Definition filenames_extend (fnames : list string) : M manifest unit :=
  modify (fun st => {| filenames := filenames st ++ fnames;
                       classes := classes st; invoked := invoked st |}).

(** [classes.extend(cls)] *)
Definition classes_extend (cls : list Z) : M manifest unit :=
  modify (fun st => {| filenames := filenames st;
                       classes := classes st ++ cls;
                       invoked := invoked st |}).

(** The body shared by every processing cell. *)
Definition process_source (s : source) : M manifest unit :=
  '(fnames, cls) <- call s ;;
  filenames_extend fnames ;;
  classes_extend cls.

(** [if DATASET_VERSION[-1] == 'B': ...] *)
Definition cell_mosmed : M manifest unit :=
  c <- lift (index_last DATASET_VERSION) ;;
  if Ascii.eqb c "B"
  then process_source MosMedSeg ;; process_source MosMedUnseg
  else ret tt.

(** The data preparation cells, top to bottom. *)
Definition data_preparation : M manifest unit :=
  process_source CNCB ;;
  process_source RadiopaediaCoronacasesSeg ;;
  process_source Radiopaedia ;;
  process_source LIDC_IDRI ;;
  process_source COVID_19_20 ;;
  process_source TCIA_COVID ;;
  process_source COVID_CTset ;;
  process_source ICTCF ;;
  process_source COVID_CT_MD ;;
  process_source STOIC ;;
  process_source StonyBrook ;;
  cell_mosmed.

(** The same cells as a list of invocations, to speak of the state after
    each one. *)
Definition process_sources (l : list source) : M manifest unit :=
  for_each l process_source.

End Cells.

(** The manifest [st] after the processors [l] have returned [outs] and
    their lists have been appended, in order. *)
Definition extended (outs : source -> output) (st : manifest)
    (l : list source) : manifest :=
  {| filenames := filenames st ++ concat (map (fun s => fst (outs s)) l);
     classes := classes st ++ concat (map (fun s => snd (outs s)) l);
     invoked := invoked st ++ l |}.

Definition base_sources : list source :=
  [CNCB; RadiopaediaCoronacasesSeg; Radiopaedia; LIDC_IDRI; COVID_19_20;
   TCIA_COVID; COVID_CTset; ICTCF; COVID_CT_MD; STOIC; StonyBrook].

Definition is_B_variant (DATASET_VERSION : string) : bool :=
  match index_last DATASET_VERSION with
  | inr c => Ascii.eqb c "B"
  | inl _ => false
  end.

Definition invocation_order (DATASET_VERSION : string) : list source :=
  base_sources ++
  (if is_B_variant DATASET_VERSION then [MosMedSeg; MosMedUnseg] else []).

(** A small run used to exercise the statements: every processor returns
    one or two slices named after itself. *)
Definition sample_process (s : source) (out : string) : output :=
  match s with
  | CNCB => (["cncb_0.png"; "cncb_1.png"], [0; 2]%Z)
  | MosMedSeg => (["mosmed_seg_0.png"], [2]%Z)
  | MosMedUnseg => (["mosmed_0.png"; "mosmed_1.png"], [2; 0]%Z)
  | LIDC_IDRI => (["lidc_0.png"], [0]%Z)
  | _ => ([], [])
  end.

(** What the processor [s] hands to the manifest in a run: its lists when
    it returns, nothing when it raises. *)
Definition returned (process : source -> string -> exn + output)
    (DATASET_VERSION : string) (s : source) : output :=
  match process s (OUTPUT_DIR DATASET_VERSION) with
  | inr o => o
  | inl _ => ([], [])
  end.

(** The only way the last cell raises by itself: [DATASET_VERSION[-1]] on
    the empty string. *)
Definition version_check (DATASET_VERSION : string) : M manifest unit :=
  match DATASET_VERSION with
  | EmptyString => raise IndexError
  | String _ _ => ret tt
  end.

(** The sample run with the LIDC-IDRI processor raising. *)
Definition sample_process_lidc_fails (s : source) (out : string)
  : exn + output :=
  match s with
  | LIDC_IDRI => inl (ProcessorError "lidc_idri_metadata.csv not found")
  | _ => inr (sample_process s out)
  end.

End Driver.

(** ** Image count printing *)

Module ImageCounts.

(** Modelled from the spec: [CLASS_MAP] is imported from
    [dataset_construction/utils.py], which is not part of the notebook; the
    canonical enumeration is Normal:0, Pneumonia:1, COVID-19:2. *)
Definition CLASS_MAP : list (string * Z) :=
  [("Normal", 0%Z); ("Pneumonia", 1%Z); ("COVID-19", 2%Z)].

Fixpoint unique_insert (x : Z) (l : list (Z * nat)) : list (Z * nat) :=
  match l with
  | [] => [(x, 1)]
  | (y, n) :: r =>
      if (x <? y)%Z then (x, 1) :: l
      else if (x =? y)%Z then (y, S n) :: r
      else (y, n) :: unique_insert x r
  end.

(** [np.unique(a, return_counts=True)]: the sorted distinct values and how
    often each occurs. *)
Definition np_unique_counts (a : list Z) : list Z * list nat :=
  split (fold_right unique_insert [] a).

(** [np.arange(n, dtype=np.int32)] *)
Definition np_arange (n : nat) : list Z := map Z.of_nat (seq 0 n).

Definition print (text : string) : M (list event) unit :=
  modify (fun out => (out ++ [EvPrint text])%list).

(** The cell, statement by statement: the counts computed by [np.unique]
    are overwritten before the loop reads them. *)
Definition print_image_counts (classes : list Z) : M (list event) unit :=
  let '(uniq_classes, counts) := np_unique_counts classes in
  let uniq_classes := np_arange 3 in
  let counts : list nat := [] in
  print "Image Counts" ;;
  for_each CLASS_MAP (fun '(name, cls) =>
    v <- lift (list_getitem counts
                 (IdxMask (map (fun u => (u =? cls)%Z) uniq_classes))) ;;
    print (name ++ ": " ++ str_nat v)).

(** The report the specification describes: one line per class name with
    the number of occurrences of its label. *)
Definition count_label (classes : list Z) (cls : Z) : nat :=
  count_occ Z.eq_dec classes cls.

Definition described_report (classes : list Z) : list event :=
  EvPrint "Image Counts" ::
  map (fun '(name, cls) =>
         EvPrint (name ++ ": " ++ str_nat (count_label classes cls)))
      CLASS_MAP.

End ImageCounts.

(** ** Verification cell *)

Module Verifier.

(** What the cell reads from the file system: the answer of [glob.glob] to
    a pattern, the lines [readlines] gives for a path ([None] when [open]
    fails), and [os.path.exists]. *)
Record world : Type := {
  glob : string -> list string;
  readlines : string -> option (list string);
  path_exists : string -> bool
}.

(** The loop variables [count], [total] and [incomplete]. *)
Record tally : Type := {
  count : nat;
  total : nat;
  incomplete : bool
}.

Definition trace : Type := list event.

Definition OUTPUT_DIR (DATASET_VERSION : string) : string :=
  "data/COVIDx_CT-" ++ DATASET_VERSION.

(** ['*_COVIDx_CT-{}.txt'.format(ver)] under ['splits/v' + major]. *)
Definition split_pattern (major : ascii) (ver : string) : string :=
  path_join ("splits/v" ++ str1 major) ("*_COVIDx_CT-" ++ ver ++ ".txt").

(** [os.path.basename(split_file).split('_')[0]] *)
Definition partition_of (split_file : string) : string :=
  split_first "_" (basename split_file).

(** [x in existing_splits] *)
Definition set_mem (x : string) (s : list string) : bool :=
  existsb (String.eqb x) s.

Definition incomplete_message (count total : nat) : string :=
  str_nat count ++ "/" ++ str_nat total
  ++ " files are missing, dataset is incomplete!".

Definition complete_message (count total : nat) : string :=
  str_nat count ++ "/" ++ str_nat total
  ++ " files created, dataset successfully constructed!".

Definition not_found_message (DATASET_VERSION : string) : string :=
  "Split files for COVIDx CT-" ++ DATASET_VERSION ++ " not found".

Section Cell.

Variable w : world.
Variable DATASET_VERSION : string.

Definition emit (e : event) : M trace unit :=
  modify (fun t => (t ++ [e])%list).

Definition print (text : string) : M trace unit := emit (EvPrint text).

Definition glob_glob (pattern : string) : M trace (list string) :=
  emit (EvGlob pattern) ;; ret (glob w pattern).

Definition open_readlines (path : string) : M trace (list string) :=
  emit (EvOpen path) ;;
  match readlines w path with
  | Some lines => ret lines
  | None => raise (OSError path)
  end.

Definition os_path_exists (path : string) : M trace bool :=
  emit (EvExists path) ;; ret (path_exists w path).

(** The split file discovery, with the fallback to the "A" variant. *)
Definition get_split_files : M trace (list string) :=
  major <- lift (index_first DATASET_VERSION) ;;
  split_files <- glob_glob (split_pattern major DATASET_VERSION) ;;
  if (length split_files =? 0)%nat
  then raise (ValueError (not_found_message DATASET_VERSION))
  else
    if negb (length split_files =? 3)%nat
    then
      let a_var := str1 major ++ "A" in
      let existing_splits := map partition_of split_files in
      split_files_a <- glob_glob (split_pattern major a_var) ;;
      let split_files_a :=
        filter (fun f => negb (set_mem (partition_of f) existing_splits))
               split_files_a in
      ret (split_files ++ split_files_a)%list
    else ret split_files.

(** The body of the inner loop, for one line. *)
Definition check_line (line : string) (t : tally) : M trace tally :=
  '(fname, cls) <- lift (unpack2 (firstn 2 (split_ws (strip_nl line)))) ;;
  let fpath := path_join (OUTPUT_DIR DATASET_VERSION) fname in
  let t := {| count := count t; total := total t + 1;
              incomplete := incomplete t |} in
  found <- os_path_exists fpath ;;
  if found
  then ret {| count := count t + 1; total := total t;
              incomplete := incomplete t |}
  else
    print ("Missing " ++ fname) ;;
    ret {| count := count t; total := total t; incomplete := true |}.

(** The body of the outer loop, for one split file. *)
Definition check_file (split_file : string) (t : tally) : M trace tally :=
  lines <- open_readlines split_file ;;
  for_fold lines check_line t.

Definition report (t : tally) : M trace unit :=
  if incomplete t
  then print (incomplete_message (count t) (total t))
  else print (complete_message (count t) (total t)).

(** From [count = 0] to the final [print]. *)
Definition verification (split_files : list string) : M trace tally :=
  t <- for_fold split_files check_file
         {| count := 0; total := 0; incomplete := false |} ;;
  report t ;;
  ret t.

(** The whole cell. *)
Definition verify : M trace tally :=
  split_files <- get_split_files ;;
  verification split_files.

(** *** Vocabulary of the statements *)

(** The filename a line names: its first token. *)
Definition fname_of (line : string) : string :=
  hd "" (split_ws (strip_nl line)).

Definition well_formed_line (line : string) : Prop :=
  2 <= length (split_ws (strip_nl line)).

(** Every split file opens and every line has a filename and a class. *)
Definition well_formed (split_files : list string) : Prop :=
  Forall (fun f => exists lines,
              readlines w f = Some lines /\ Forall well_formed_line lines)
         split_files.

(** The same, as a check that can be run. *)
Definition well_formedb (split_files : list string) : bool :=
  forallb (fun f =>
             match readlines w f with
             | Some lines =>
                 forallb (fun l =>
                            (2 <=? length (split_ws (strip_nl l)))%nat)
                         lines
             | None => false
             end) split_files.

Definition lines_of (split_file : string) : list string :=
  match readlines w split_file with
  | Some lines => lines
  | None => []
  end.

(** Every filename the split files list, in reading order. *)
Definition listed (split_files : list string) : list string :=
  flat_map (fun f => map fname_of (lines_of f)) split_files.

Definition present (fname : string) : bool :=
  path_exists w (path_join (OUTPUT_DIR DATASET_VERSION) fname).

Definition absent (fname : string) : bool := negb (present fname).

Definition missing_message (fname : string) : string :=
  "Missing " ++ fname.

(** What checking one listed filename does, and what it leaves in the
    loop variables. *)
Definition line_events (fname : string) : trace :=
  EvExists (path_join (OUTPUT_DIR DATASET_VERSION) fname)
  :: (if present fname then [] else [EvPrint (missing_message fname)]).

Definition file_events (split_file : string) : trace :=
  EvOpen split_file
  :: flat_map line_events (map fname_of (lines_of split_file)).

Definition tally_after (fnames : list string) (t : tally) : tally :=
  {| count := count t + length (filter present fnames);
     total := total t + length fnames;
     incomplete := incomplete t || existsb absent fnames |}.

Definition tally_zero : tally :=
  {| count := 0; total := 0; incomplete := false |}.

Definition final_message (t : tally) : string :=
  if incomplete t then incomplete_message (count t) (total t)
  else complete_message (count t) (total t).

(** The files the fallback adds to [found]: the "A" variant's files of
    the partitions [found] does not cover. *)
Definition supplement (major : ascii) (found : list string) : list string :=
  filter (fun f => negb (set_mem (partition_of f) (map partition_of found)))
         (glob w (split_pattern major (str1 major ++ "A"))).

End Cell.

(** A line the unpacking of the loop body fails on. *)
Definition short_line (line : string) : Prop :=
  length (split_ws (strip_nl line)) < 2.

Definition only_missing_messages (out : list string) : Prop :=
  Forall (fun s => exists f, s = missing_message f) out.

(** Projections of a trace. *)
Definition checked (tr : trace) : list string :=
  flat_map (fun e => match e with EvExists p => [p] | _ => [] end) tr.

Definition printed (tr : trace) : list string :=
  flat_map (fun e => match e with EvPrint s => [s] | _ => [] end) tr.

Definition opened (tr : trace) : list string :=
  flat_map (fun e => match e with EvOpen p => [p] | _ => [] end) tr.

End Verifier.

(** ** Small file systems and runs used to exercise the statements *)

Module Fixtures.
Import Verifier.

Definition nl : string := str1 newline.

Definition files_world (globs : list (string * list string))
    (files : list (string * list string)) (output : list string) : world :=
  {| glob := fun pat =>
       match find (fun e => String.eqb (fst e) pat) globs with
       | Some e => snd e
       | None => []
       end;
     readlines := fun p =>
       match find (fun e => String.eqb (fst e) p) files with
       | Some e => Some (snd e)
       | None => None
       end;
     path_exists := fun p => set_mem p output |}.

Definition train_3A : string := "splits/v3/train_COVIDx_CT-3A.txt".
Definition val_3A : string := "splits/v3/val_COVIDx_CT-3A.txt".
Definition test_3A : string := "splits/v3/test_COVIDx_CT-3A.txt".
Definition train_3B : string := "splits/v3/train_COVIDx_CT-3B.txt".
Definition val_3B : string := "splits/v3/val_COVIDx_CT-3B.txt".
Definition pattern_3A : string := "splits/v3/*_COVIDx_CT-3A.txt".
Definition pattern_3B : string := "splits/v3/*_COVIDx_CT-3B.txt".

(** Output directory {a.png, b.png}; one split file listing a.png and
    c.png. *)
Definition w_ab : world :=
  files_world [(pattern_3A, [train_3A])]
              [(train_3A, ["a.png 1" ++ nl; "c.png 2" ++ nl])]
              ["data/COVIDx_CT-3A/a.png"; "data/COVIDx_CT-3A/b.png"].

(** Three split files, three listed files, all present. *)
Definition w_full : world :=
  files_world [(pattern_3A, [train_3A; val_3A; test_3A])]
              [(train_3A, ["a.png 1" ++ nl]);
               (val_3A, ["b.png 0 extra" ++ nl]);
               (test_3A, ["c.png 2" ++ nl])]
              ["data/COVIDx_CT-3A/a.png"; "data/COVIDx_CT-3A/b.png";
               "data/COVIDx_CT-3A/c.png"].

(** No split file of the "B" variant at all; the "A" variant is complete. *)
Definition w_none : world :=
  files_world [(pattern_3A, [train_3A; val_3A; test_3A])]
              [(train_3A, ["a.png 1" ++ nl]);
               (val_3A, ["b.png 0" ++ nl]);
               (test_3A, ["c.png 2" ++ nl])]
              ["data/COVIDx_CT-3B/a.png"].

(** Two of the three "B" split files; the "A" variant is complete. *)
Definition w_fallback : world :=
  files_world [(pattern_3B, [train_3B; val_3B]);
               (pattern_3A, [train_3A; val_3A; test_3A])]
              [(train_3B, ["a.png 1" ++ nl]);
               (val_3B, ["b.png 0" ++ nl]);
               (test_3A, ["c.png 2" ++ nl])]
              ["data/COVIDx_CT-3B/a.png"].

(** Two listed files are absent, the first of them in the middle of the
    first split file. *)
Definition w_gap : world :=
  files_world [(pattern_3A, [train_3A; val_3A; test_3A])]
              [(train_3A, ["a.png 1" ++ nl; "x.png 2" ++ nl]);
               (val_3A, ["b.png 0" ++ nl]);
               (test_3A, ["y.png 1" ++ nl])]
              ["data/COVIDx_CT-3A/a.png"; "data/COVIDx_CT-3A/b.png"].

(** A split file whose second line is blank. *)
Definition w_blank : world :=
  files_world [(pattern_3A, [train_3A; val_3A; test_3A])]
              [(train_3A, ["a.png 1" ++ nl; nl; "b.png 0" ++ nl]);
               (val_3A, ["b.png 0" ++ nl]);
               (test_3A, ["c.png 2" ++ nl])]
              ["data/COVIDx_CT-3A/a.png"].

(** [w_full] with other class labels and other extra fields. *)
Definition w_full_relabelled : world :=
  files_world [(pattern_3A, [train_3A; val_3A; test_3A])]
              [(train_3A, ["a.png 2 7 8 9" ++ nl]);
               (val_3A, ["b.png 1" ++ nl]);
               (test_3A, ["  c.png   0"])]
              ["data/COVIDx_CT-3A/a.png"; "data/COVIDx_CT-3A/b.png";
               "data/COVIDx_CT-3A/c.png"].

(** The second split file cannot be opened. *)
Definition w_unreadable : world :=
  files_world [(pattern_3A, [train_3A; val_3A; test_3A])]
              [(train_3A, ["a.png 1" ++ nl; "z.png 1" ++ nl]);
               (test_3A, ["c.png 2" ++ nl])]
              ["data/COVIDx_CT-3A/a.png"].

(** Only two split files of the "A" variant exist. *)
Definition w_two_A : world :=
  files_world [(pattern_3A, [train_3A; val_3A])]
              [(train_3A, ["a.png 1" ++ nl]);
               (val_3A, ["b.png 0" ++ nl])]
              ["data/COVIDx_CT-3A/a.png"].

End Fixtures.

(** * Properties *)

(** ** The monad *)

Lemma bind_returns {S A B} (m : M S A) (k : A -> M S B) s s' a :
  m s = (s', inr a) -> bind m k s = k a s'.
Proof. intros H. unfold bind. now rewrite H. Qed.

Lemma bind_raises {S A B} (m : M S A) (k : A -> M S B) s s' e :
  m s = (s', inl e) -> bind m k s = (s', inl e).
Proof. intros H. unfold bind. now rewrite H. Qed.

(** ** The verification loop *)

Section VerifierFacts.
Import Verifier.

Variable w : world.
Variable V : string.

Lemma unpack2_first_two (tokens : list string) :
  2 <= length tokens ->
  unpack2 (firstn 2 tokens) = inr (hd "" tokens, hd "" (tl tokens)).
Proof.
  destruct tokens as [|a [|b r]]; simpl; intros H; try lia. reflexivity.
Qed.

Lemma unpack2_too_few (tokens : list string) :
  length tokens < 2 ->
  unpack2 (firstn 2 tokens) = inl (UnpackError (length tokens)).
Proof.
  destruct tokens as [|a [|b r]]; simpl; intros H; try lia; reflexivity.
Qed.

Lemma check_line_returns line t tr :
  well_formed_line line ->
  check_line w V line t tr
  = ((tr ++ line_events w V (fname_of line))%list,
     inr (tally_after w V [fname_of line] t)).
Proof.
  intros H. unfold well_formed_line in H.
  unfold check_line, lift, bind at 1.
  rewrite (unpack2_first_two _ H).
  unfold line_events, tally_after, fname_of, absent, present.
  unfold os_path_exists, print, emit, modify, ret, bind. simpl.
  destruct (path_exists w _); simpl.
  - rewrite orb_false_r. reflexivity.
  - rewrite ?Nat.add_0_r, orb_true_r, <- ?app_assoc. reflexivity.
Qed.

Lemma check_line_raises line t tr :
  length (split_ws (strip_nl line)) < 2 ->
  check_line w V line t tr
  = (tr, inl (UnpackError (length (split_ws (strip_nl line))))).
Proof.
  intros H. unfold check_line, lift, bind.
  now rewrite (unpack2_too_few _ H).
Qed.

Lemma tally_after_app l1 l2 t :
  tally_after w V (l1 ++ l2) t = tally_after w V l2 (tally_after w V l1 t).
Proof.
  unfold tally_after; simpl.
  rewrite filter_app, existsb_app, !length_app, orb_assoc.
  f_equal; lia.
Qed.

Lemma tally_after_nil t : tally_after w V [] t = t.
Proof.
  destruct t; unfold tally_after; simpl.
  now rewrite !Nat.add_0_r, orb_false_r.
Qed.

Lemma check_lines_return lines t tr :
  Forall well_formed_line lines ->
  for_fold lines (check_line w V) t tr
  = ((tr ++ flat_map (line_events w V) (map fname_of lines))%list,
     inr (tally_after w V (map fname_of lines) t)).
Proof.
  intros H. revert t tr. induction H as [|line lines Hl _ IH]; intros t tr.
  - simpl. now rewrite app_nil_r, tally_after_nil.
  - cbn [for_fold map flat_map].
    rewrite (bind_returns _ _ _ _ _ (check_line_returns line t tr Hl)).
    rewrite IH, <- app_assoc.
    change (fname_of line :: map fname_of lines)
      with ([fname_of line] ++ map fname_of lines)%list.
    now rewrite tally_after_app.
Qed.

Lemma check_file_returns f lines t tr :
  readlines w f = Some lines ->
  Forall well_formed_line lines ->
  check_file w V f t tr
  = ((tr ++ file_events w V f)%list,
     inr (tally_after w V (map fname_of (lines_of w f)) t)).
Proof.
  intros Hr Hl. unfold check_file, open_readlines, file_events, lines_of.
  rewrite Hr. unfold emit, modify, ret, bind at 1 2. simpl.
  rewrite (check_lines_return lines t _ Hl), <- app_assoc. reflexivity.
Qed.

Lemma check_files_return files t tr :
  well_formed w files ->
  for_fold files (check_file w V) t tr
  = ((tr ++ flat_map (file_events w V) files)%list,
     inr (tally_after w V (listed w files) t)).
Proof.
  intros H. revert t tr.
  induction H as [|f files (lines & Hr & Hl) _ IH]; intros t tr.
  - simpl. now rewrite app_nil_r, tally_after_nil.
  - cbn [for_fold flat_map]. unfold listed in *. cbn [flat_map].
    rewrite (bind_returns _ _ _ _ _ (check_file_returns f lines t tr Hr Hl)).
    now rewrite IH, <- app_assoc, tally_after_app.
Qed.

Lemma verification_returns files tr :
  well_formed w files ->
  let t := tally_after w V (listed w files) tally_zero in
  verification w V files tr
  = ((tr ++ flat_map (file_events w V) files
         ++ [EvPrint (final_message t)])%list,
     inr t).
Proof.
  intros H t. unfold verification.
  rewrite (bind_returns _ _ _ _ _ (check_files_return files tally_zero tr H)).
  fold t. unfold report, final_message, print, emit, modify, ret, bind.
  rewrite app_assoc. destruct (incomplete t); reflexivity.
Qed.

Lemma verify_after_discovery tr0 files :
  get_split_files w V [] = (tr0, inr files) ->
  verify w V [] = verification w V files tr0.
Proof. intros H. unfold verify. now apply bind_returns. Qed.

(** Projections of the loop's events. *)

Lemma checked_app (t1 t2 : trace) :
  checked (t1 ++ t2)%list = (checked t1 ++ checked t2)%list.
Proof. apply flat_map_app. Qed.

Lemma printed_app (t1 t2 : trace) :
  printed (t1 ++ t2)%list = (printed t1 ++ printed t2)%list.
Proof. apply flat_map_app. Qed.

Lemma opened_app (t1 t2 : trace) :
  opened (t1 ++ t2)%list = (opened t1 ++ opened t2)%list.
Proof. apply flat_map_app. Qed.

Lemma checked_lines fnames :
  checked (flat_map (line_events w V) fnames)
  = map (path_join (OUTPUT_DIR V)) fnames.
Proof.
  induction fnames as [|f r IH]; [reflexivity|].
  cbn [flat_map map]. rewrite checked_app, IH.
  unfold line_events. destruct (present w V f); reflexivity.
Qed.

Lemma printed_lines fnames :
  printed (flat_map (line_events w V) fnames)
  = map missing_message (filter (absent w V) fnames).
Proof.
  induction fnames as [|f r IH]; [reflexivity|].
  cbn [flat_map filter]. rewrite printed_app, IH.
  unfold line_events, absent. destruct (present w V f); reflexivity.
Qed.

Lemma opened_lines fnames :
  opened (flat_map (line_events w V) fnames) = [].
Proof.
  induction fnames as [|f r IH]; [reflexivity|].
  cbn [flat_map]. rewrite opened_app, IH.
  unfold line_events. destruct (present w V f); reflexivity.
Qed.

Lemma checked_files files :
  checked (flat_map (file_events w V) files)
  = map (path_join (OUTPUT_DIR V)) (listed w files).
Proof.
  induction files as [|f r IH]; [reflexivity|].
  unfold listed in *. cbn [flat_map]. rewrite checked_app, IH, map_app.
  f_equal. unfold file_events. cbn. apply checked_lines.
Qed.

Lemma printed_files files :
  printed (flat_map (file_events w V) files)
  = map missing_message (filter (absent w V) (listed w files)).
Proof.
  induction files as [|f r IH]; [reflexivity|].
  unfold listed in *. cbn [flat_map].
  rewrite printed_app, IH, filter_app, map_app.
  f_equal. unfold file_events. cbn. apply printed_lines.
Qed.

Lemma opened_files files :
  opened (flat_map (file_events w V) files) = files.
Proof.
  induction files as [|f r IH]; [reflexivity|].
  cbn [flat_map]. rewrite opened_app, IH.
  unfold file_events. cbn. now rewrite opened_lines.
Qed.

End VerifierFacts.

(** ** Split file discovery *)

Section DiscoveryFacts.
Import Verifier.

Variable w : world.
Variable V : string.
Variable major : ascii.
Hypothesis Hmajor : index_first V = inr major.

Lemma discovery_none tr :
  glob w (split_pattern major V) = [] ->
  get_split_files w V tr
  = ((tr ++ [EvGlob (split_pattern major V)])%list,
     inl (ValueError (not_found_message V))).
Proof.
  intros H. unfold get_split_files, lift, bind at 1. rewrite Hmajor.
  unfold glob_glob, emit, modify, ret, bind. rewrite H. reflexivity.
Qed.

Lemma discovery_three tr :
  length (glob w (split_pattern major V)) = 3 ->
  get_split_files w V tr
  = ((tr ++ [EvGlob (split_pattern major V)])%list,
     inr (glob w (split_pattern major V))).
Proof.
  intros H. unfold get_split_files, lift, bind at 1. rewrite Hmajor.
  unfold glob_glob, emit, modify, ret, bind. rewrite H. reflexivity.
Qed.

Lemma discovery_fallback tr :
  glob w (split_pattern major V) <> [] ->
  length (glob w (split_pattern major V)) <> 3 ->
  get_split_files w V tr
  = ((tr ++ [EvGlob (split_pattern major V);
             EvGlob (split_pattern major (str1 major ++ "A"))])%list,
     inr (glob w (split_pattern major V)
          ++ supplement w major (glob w (split_pattern major V)))%list).
Proof.
  intros Hne H3. unfold get_split_files, lift, bind at 1. rewrite Hmajor.
  unfold glob_glob, emit, modify, ret, bind, supplement.
  destruct (glob w (split_pattern major V)) as [|f found] eqn:E;
    [contradiction|].
  apply Nat.eqb_neq in H3. rewrite H3. cbn [length Nat.eqb negb].
  rewrite <- app_assoc. reflexivity.
Qed.

End DiscoveryFacts.

Lemma discovery_only_globs (w : Verifier.world) (V : string) tr0 r :
  Verifier.get_split_files w V [] = (tr0, r) ->
  Verifier.checked tr0 = [] /\ Verifier.printed tr0 = []
  /\ Verifier.opened tr0 = [].
Proof.
  intros H. destruct V as [|major rest].
  - cbv in H. inversion H. repeat split.
  - set (V := String major rest) in *.
    assert (Hm : index_first V = inr major) by reflexivity.
    destruct (Verifier.glob w (Verifier.split_pattern major V)) as [|f l] eqn:E.
    + rewrite (discovery_none w V major Hm [] E) in H. inversion H.
      repeat split.
    + destruct (Nat.eq_dec (length (Verifier.glob w
                  (Verifier.split_pattern major V))) 3) as [H3|H3].
      * rewrite (discovery_three w V major Hm [] H3) in H. inversion H.
        repeat split.
      * rewrite (discovery_fallback w V major Hm []) in H;
          [|rewrite E; discriminate|exact H3].
        inversion H. repeat split.
Qed.

Lemma filter_shorter {A} (p : A -> bool) (l : list A) (x : A) :
  In x l -> p x = false -> length (filter p l) < length l.
Proof.
  induction l as [|y l IH]; simpl; [tauto|].
  intros [->|Hin] Hx.
  - rewrite Hx. pose proof (filter_length_le p l). lia.
  - specialize (IH Hin Hx). destruct (p y); simpl; lia.
Qed.

Lemma filter_all {A} (p : A -> bool) (l : list A) :
  (forall x, In x l -> p x = true) -> filter p l = l.
Proof.
  induction l as [|y l IH]; simpl; intros H; [reflexivity|].
  rewrite (H y (or_introl eq_refl)). f_equal. apply IH. auto.
Qed.

Lemma filter_none {A} (p : A -> bool) (l : list A) :
  (forall x, In x l -> p x = false) -> filter p l = [].
Proof.
  induction l as [|y l IH]; simpl; intros H; [reflexivity|].
  rewrite (H y (or_introl eq_refl)). apply IH. auto.
Qed.

(** The whole cell on well-formed split files: its trace and final
    variables. *)
Lemma verify_returns (w : Verifier.world) (V : string) tr0 files :
  Verifier.get_split_files w V [] = (tr0, inr files) ->
  Verifier.well_formed w files ->
  let t := Verifier.tally_after w V (Verifier.listed w files)
             Verifier.tally_zero in
  exists tr,
    Verifier.verify w V [] = (tr, inr t) /\
    Verifier.opened tr = files /\
    Verifier.checked tr
    = map (path_join (Verifier.OUTPUT_DIR V)) (Verifier.listed w files) /\
    Verifier.printed tr
    = (map Verifier.missing_message
           (filter (Verifier.absent w V) (Verifier.listed w files))
         ++ [Verifier.final_message t])%list.
Proof.
  intros Hd Hwf t.
  destruct (discovery_only_globs w V tr0 _ Hd) as (Hc & Hp & Ho).
  eexists. split.
  - rewrite (verify_after_discovery w V tr0 files Hd).
    apply verification_returns. exact Hwf.
  - rewrite !opened_app, !checked_app, !printed_app, Hc, Hp, Ho.
    rewrite opened_files, checked_files, printed_files. cbn [app].
    repeat split; try reflexivity; apply app_nil_r.
Qed.

Lemma tally_after_zero (w : Verifier.world) (V : string) fnames :
  let t := Verifier.tally_after w V fnames Verifier.tally_zero in
  Verifier.count t = length (filter (Verifier.present w V) fnames) /\
  Verifier.total t = length fnames /\
  Verifier.incomplete t = existsb (Verifier.absent w V) fnames.
Proof. cbn. repeat split. Qed.

Lemma well_formedb_sound (w : Verifier.world) files :
  Verifier.well_formedb w files = true -> Verifier.well_formed w files.
Proof.
  unfold Verifier.well_formedb, Verifier.well_formed.
  rewrite forallb_forall, Forall_forall. intros H f Hin.
  specialize (H f Hin). destruct (Verifier.readlines w f) as [lines|];
    [|discriminate].
  exists lines. split; [reflexivity|].
  apply Forall_forall. intros l Hl. rewrite forallb_forall in H.
  apply Nat.leb_le, H, Hl.
Qed.

(** ** Claims about the verification cell *)

(** C2. For every requested version: when the glob for that version's split
    files returns no file, the cell ends with the [ValueError] right after
    that glob; no split file is opened, no path is checked, nothing is
    printed and no tally is returned. *)
Theorem no_split_files_is_fatal (w : Verifier.world) (V : string)
    (major : ascii) :
  index_first V = inr major ->
  Verifier.glob w (Verifier.split_pattern major V) = [] ->
  exists tr,
    Verifier.verify w V []
    = (tr, inl (ValueError ("Split files for COVIDx CT-" ++ V ++ " not found")))
    /\ tr = [EvGlob (Verifier.split_pattern major V)]
    /\ Verifier.opened tr = [] /\ Verifier.checked tr = []
    /\ Verifier.printed tr = [].
Proof.
  intros Hm Hg. eexists. split.
  - unfold Verifier.verify. eapply bind_raises.
    apply (discovery_none w V major Hm [] Hg).
  - repeat split.
Qed.

Lemma no_split_files_is_fatal_witness :
  index_first "3B" = inr "3"%char /\
  Verifier.glob Fixtures.w_none (Verifier.split_pattern "3" "3B") = [] /\
  exists tr,
    Verifier.verify Fixtures.w_none "3B" []
    = (tr, inl (ValueError "Split files for COVIDx CT-3B not found"))
    /\ tr = [EvGlob "splits/v3/*_COVIDx_CT-3B.txt"]
    /\ Verifier.opened tr = [] /\ Verifier.checked tr = []
    /\ Verifier.printed tr = [].
Proof.
  split; [reflexivity|]. split; [reflexivity|].
  exact (no_split_files_is_fatal Fixtures.w_none "3B" "3"%char
           eq_refl eq_refl).
Defined.

(** C3, as stated, at a version none of whose split files exists: fewer than
    three split files are found, yet the cell does not fall back to the "A"
    variant (which is complete here) and ends with the [ValueError]. *)
Lemma fallback_not_taken_without_split_files :
  Verifier.glob Fixtures.w_none (Verifier.split_pattern "3" "3B") = [] /\
  length (Verifier.glob Fixtures.w_none (Verifier.split_pattern "3" "3B")) <> 3 /\
  Verifier.supplement Fixtures.w_none "3" []
  = [Fixtures.train_3A; Fixtures.val_3A; Fixtures.test_3A] /\
  Verifier.get_split_files Fixtures.w_none "3B" []
  = ([EvGlob "splits/v3/*_COVIDx_CT-3B.txt"],
     inl (ValueError "Split files for COVIDx CT-3B not found")) /\
  ~ (exists tr files,
        Verifier.get_split_files Fixtures.w_none "3B" [] = (tr, inr files)).
Proof.
  split; [reflexivity|]. split; [vm_compute; discriminate|].
  split; [reflexivity|]. split; [reflexivity|].
  intros (tr & files & H). vm_compute in H. discriminate H.
Qed.

(** C3, amended. For every requested version for which the glob finds at
    least one split file but not exactly three, the discovery keeps the files
    found, appends exactly the "A" variant's split files (same major version
    character) whose partition name is not the partition name of a file
    found, and returns that list instead of raising. *)
Theorem fallback_supplements_missing_partitions (w : Verifier.world)
    (V : string) (major : ascii) (found : list string) :
  index_first V = inr major ->
  found = Verifier.glob w (Verifier.split_pattern major V) ->
  found <> [] ->
  length found <> 3 ->
  exists added,
    Verifier.get_split_files w V []
    = ([EvGlob (Verifier.split_pattern major V);
        EvGlob (Verifier.split_pattern major (str1 major ++ "A"))],
       inr (found ++ added)%list) /\
    forall f,
      In f added <->
      In f (Verifier.glob w (Verifier.split_pattern major (str1 major ++ "A")))
      /\ ~ In (Verifier.partition_of f) (map Verifier.partition_of found).
Proof.
  intros Hm -> Hne H3. exists (Verifier.supplement w major
    (Verifier.glob w (Verifier.split_pattern major V))). split.
  - apply (discovery_fallback w V major Hm [] Hne H3).
  - intros f. unfold Verifier.supplement, Verifier.set_mem.
    rewrite filter_In, negb_true_iff. apply and_iff_compat_l.
    rewrite <- not_true_iff_false, existsb_exists. split.
    + intros Hn Hin. apply Hn. exists (Verifier.partition_of f).
      split; [exact Hin|apply String.eqb_refl].
    + intros Hn (x & Hin & Heq). apply String.eqb_eq in Heq. subst x.
      exact (Hn Hin).
Qed.

Lemma fallback_supplements_missing_partitions_witness :
  index_first "3B" = inr "3"%char /\
  [Fixtures.train_3B; Fixtures.val_3B]
  = Verifier.glob Fixtures.w_fallback (Verifier.split_pattern "3" "3B") /\
  [Fixtures.train_3B; Fixtures.val_3B] <> [] /\
  length [Fixtures.train_3B; Fixtures.val_3B] <> 3 /\
  Verifier.get_split_files Fixtures.w_fallback "3B" []
  = ([EvGlob "splits/v3/*_COVIDx_CT-3B.txt";
      EvGlob "splits/v3/*_COVIDx_CT-3A.txt"],
     inr [Fixtures.train_3B; Fixtures.val_3B; Fixtures.test_3A]) /\
  exists added,
    Verifier.get_split_files Fixtures.w_fallback "3B" []
    = ([EvGlob "splits/v3/*_COVIDx_CT-3B.txt";
        EvGlob "splits/v3/*_COVIDx_CT-3A.txt"],
       inr ([Fixtures.train_3B; Fixtures.val_3B] ++ added)%list) /\
    forall f,
      In f added <->
      In f (Verifier.glob Fixtures.w_fallback
              (Verifier.split_pattern "3" (str1 "3" ++ "A")))
      /\ ~ In (Verifier.partition_of f)
              (map Verifier.partition_of [Fixtures.train_3B; Fixtures.val_3B]).
Proof.
  split; [reflexivity|]. split; [reflexivity|].
  split; [discriminate|]. split; [cbn; lia|]. split; [reflexivity|].
  apply (fallback_supplements_missing_partitions Fixtures.w_fallback "3B"
           "3"%char [Fixtures.train_3B; Fixtures.val_3B]);
    [reflexivity|reflexivity|discriminate|cbn; lia].
Defined.

(** C4. For every list of discovered split files whose lines each carry a
    filename and a class, and every state of the output directory: [total]
    counts every line, [count] counts the lines whose filename (the first
    token) exists under the output directory, every such path is checked,
    and each missing filename is printed, followed by the final report. *)
Theorem verifier_tallies_listed_files (w : Verifier.world) (V : string)
    (tr0 : Verifier.trace) (files : list string) :
  Verifier.get_split_files w V [] = (tr0, inr files) ->
  Verifier.well_formed w files ->
  exists tr t,
    Verifier.verify w V [] = (tr, inr t) /\
    Verifier.total t = length (Verifier.listed w files) /\
    Verifier.count t
    = length (filter (Verifier.present w V) (Verifier.listed w files)) /\
    Verifier.incomplete t
    = existsb (Verifier.absent w V) (Verifier.listed w files) /\
    Verifier.checked tr
    = map (path_join ("data/COVIDx_CT-" ++ V)) (Verifier.listed w files) /\
    Verifier.printed tr
    = (map (fun f => ("Missing " ++ f)%string)
           (filter (Verifier.absent w V) (Verifier.listed w files))
       ++ [if Verifier.incomplete t
           then Verifier.incomplete_message (Verifier.count t) (Verifier.total t)
           else Verifier.complete_message (Verifier.count t) (Verifier.total t)])%list.
Proof.
  intros Hd Hwf.
  destruct (verify_returns w V tr0 files Hd Hwf) as (tr & Hv & _ & Hc & Hp).
  exists tr, (Verifier.tally_after w V (Verifier.listed w files)
                Verifier.tally_zero).
  destruct (tally_after_zero w V (Verifier.listed w files)) as (H1 & H2 & H3).
  repeat split; assumption.
Qed.

(** The scenario of the specification: output directory {a.png, b.png}, one
    split file with the lines "a.png 1" and "c.png 2". *)
Lemma verifier_tallies_listed_files_witness :
  Verifier.get_split_files Fixtures.w_ab "3A" []
  = ([EvGlob Fixtures.pattern_3A; EvGlob Fixtures.pattern_3A],
     inr [Fixtures.train_3A]) /\
  Verifier.well_formed Fixtures.w_ab [Fixtures.train_3A] /\
  exists tr t,
    Verifier.verify Fixtures.w_ab "3A" [] = (tr, inr t) /\
    Verifier.total t = 2 /\
    Verifier.count t = 1 /\
    Verifier.incomplete t = true /\
    Verifier.checked tr
    = ["data/COVIDx_CT-3A/a.png"; "data/COVIDx_CT-3A/c.png"] /\
    Verifier.printed tr
    = ["Missing c.png"; "1/2 files are missing, dataset is incomplete!"].
Proof.
  assert (Hd : Verifier.get_split_files Fixtures.w_ab "3A" []
               = ([EvGlob Fixtures.pattern_3A; EvGlob Fixtures.pattern_3A],
                  inr [Fixtures.train_3A])) by reflexivity.
  assert (Hwf : Verifier.well_formed Fixtures.w_ab [Fixtures.train_3A])
    by (apply well_formedb_sound; reflexivity).
  split; [exact Hd|]. split; [exact Hwf|].
  destruct (verifier_tallies_listed_files Fixtures.w_ab "3A" _ _ Hd Hwf)
    as (tr & t & Hv & Ht & Hc & Hi & Hch & Hp).
  exists tr, t. rewrite Hi in Hp. rewrite Hc, Ht in Hp.
  repeat split; assumption.
Defined.

(** C5. Whenever a filename listed by a split file is absent from the output
    directory, the run ends with [incomplete] set and its last printed line
    is "N/M files are missing, dataset is incomplete!", N being the number
    of listed files present and M the number of listed files, with N < M. *)
Theorem incomplete_report_states_present_of_total (w : Verifier.world)
    (V : string) (tr0 : Verifier.trace) (files : list string) (f : string) :
  Verifier.get_split_files w V [] = (tr0, inr files) ->
  Verifier.well_formed w files ->
  In f (Verifier.listed w files) ->
  Verifier.present w V f = false ->
  exists tr t,
    Verifier.verify w V [] = (tr, inr t) /\
    Verifier.incomplete t = true /\
    Verifier.count t
    = length (filter (Verifier.present w V) (Verifier.listed w files)) /\
    Verifier.total t = length (Verifier.listed w files) /\
    Verifier.count t < Verifier.total t /\
    last (Verifier.printed tr) ""
    = str_nat (Verifier.count t) ++ "/" ++ str_nat (Verifier.total t)
      ++ " files are missing, dataset is incomplete!".
Proof.
  intros Hd Hwf Hin Hf.
  destruct (verify_returns w V tr0 files Hd Hwf) as (tr & Hv & _ & _ & Hp).
  destruct (tally_after_zero w V (Verifier.listed w files)) as (H1 & H2 & H3).
  set (t := Verifier.tally_after w V (Verifier.listed w files)
              Verifier.tally_zero) in *.
  assert (Hi : Verifier.incomplete t = true).
  { rewrite H3. apply existsb_exists. exists f. split; [exact Hin|].
    unfold Verifier.absent. now rewrite Hf. }
  exists tr, t. repeat split; try assumption.
  - rewrite H1, H2. now apply filter_shorter with (x := f).
  - rewrite Hp, last_last. unfold Verifier.final_message. now rewrite Hi.
Qed.

Lemma incomplete_report_states_present_of_total_witness :
  Verifier.get_split_files Fixtures.w_ab "3A" []
  = ([EvGlob Fixtures.pattern_3A; EvGlob Fixtures.pattern_3A],
     inr [Fixtures.train_3A]) /\
  Verifier.well_formed Fixtures.w_ab [Fixtures.train_3A] /\
  In "c.png" (Verifier.listed Fixtures.w_ab [Fixtures.train_3A]) /\
  Verifier.present Fixtures.w_ab "3A" "c.png" = false /\
  exists tr t,
    Verifier.verify Fixtures.w_ab "3A" [] = (tr, inr t) /\
    Verifier.incomplete t = true /\
    Verifier.count t = 1 /\
    Verifier.total t = 2 /\
    last (Verifier.printed tr) ""
    = "1/2 files are missing, dataset is incomplete!".
Proof.
  assert (Hd : Verifier.get_split_files Fixtures.w_ab "3A" []
               = ([EvGlob Fixtures.pattern_3A; EvGlob Fixtures.pattern_3A],
                  inr [Fixtures.train_3A])) by reflexivity.
  assert (Hwf : Verifier.well_formed Fixtures.w_ab [Fixtures.train_3A])
    by (apply well_formedb_sound; reflexivity).
  assert (Hin : In "c.png" (Verifier.listed Fixtures.w_ab [Fixtures.train_3A]))
    by (right; left; reflexivity).
  assert (Hf : Verifier.present Fixtures.w_ab "3A" "c.png" = false)
    by reflexivity.
  split; [exact Hd|]. split; [exact Hwf|]. split; [exact Hin|].
  split; [exact Hf|].
  destruct (incomplete_report_states_present_of_total
              Fixtures.w_ab "3A" _ _ "c.png" Hd Hwf Hin Hf)
    as (tr & t & Hv & Hi & Hc & Ht & _ & Hl).
  exists tr, t. rewrite Hc, Ht in Hl.
  repeat split; assumption.
Defined.

(** C6. A listed filename absent from the output directory does not stop the
    run: every split file is still opened, the path of every listed filename
    before and after the absent one is still checked, every absent filename
    is printed, and the run returns normally after its final report. *)
Theorem missing_file_does_not_stop_checking (w : Verifier.world)
    (V : string) (tr0 : Verifier.trace) (files : list string)
    (before : list string) (f : string) (after : list string) :
  Verifier.get_split_files w V [] = (tr0, inr files) ->
  Verifier.well_formed w files ->
  Verifier.listed w files = (before ++ f :: after)%list ->
  Verifier.present w V f = false ->
  exists tr t,
    Verifier.verify w V [] = (tr, inr t) /\
    Verifier.opened tr = files /\
    Verifier.checked tr
    = (map (path_join (Verifier.OUTPUT_DIR V)) before
       ++ path_join (Verifier.OUTPUT_DIR V) f
       :: map (path_join (Verifier.OUTPUT_DIR V)) after)%list /\
    Verifier.printed tr
    = (map Verifier.missing_message (filter (Verifier.absent w V) before)
       ++ Verifier.missing_message f
       :: map Verifier.missing_message (filter (Verifier.absent w V) after)
       ++ [Verifier.incomplete_message (Verifier.count t) (Verifier.total t)])%list /\
    Verifier.total t = length before + 1 + length after.
Proof.
  intros Hd Hwf Hl Hf.
  destruct (verify_returns w V tr0 files Hd Hwf) as (tr & Hv & Ho & Hc & Hp).
  destruct (tally_after_zero w V (Verifier.listed w files)) as (H1 & H2 & H3).
  set (t := Verifier.tally_after w V (Verifier.listed w files)
              Verifier.tally_zero) in *.
  assert (Hi : Verifier.incomplete t = true).
  { rewrite H3, Hl, existsb_app. cbn [existsb]. unfold Verifier.absent at 2.
    rewrite Hf. cbn. apply orb_true_r. }
  exists tr, t. repeat split; try assumption.
  - rewrite Hc, Hl, map_app. reflexivity.
  - rewrite Hp, Hl, filter_app. cbn [filter]. unfold Verifier.absent at 2.
    rewrite Hf. cbn [negb]. rewrite map_app. cbn [map].
    unfold Verifier.final_message. rewrite Hi, <- app_assoc. reflexivity.
  - rewrite H2, Hl, length_app. cbn [length]. lia.
Qed.

(** C7. Whenever every filename listed by the discovered split files exists
    in the output directory, M files being listed, the run ends with
    [count = total = M] and prints only
    "M/M files created, dataset successfully constructed!". *)
Theorem complete_report_when_all_present (w : Verifier.world) (V : string)
    (tr0 : Verifier.trace) (files : list string) :
  Verifier.get_split_files w V [] = (tr0, inr files) ->
  Verifier.well_formed w files ->
  (forall f, In f (Verifier.listed w files) -> Verifier.present w V f = true) ->
  exists tr t,
    Verifier.verify w V [] = (tr, inr t) /\
    Verifier.count t = Verifier.total t /\
    Verifier.total t = length (Verifier.listed w files) /\
    Verifier.incomplete t = false /\
    Verifier.printed tr
    = [str_nat (Verifier.total t) ++ "/" ++ str_nat (Verifier.total t)
       ++ " files created, dataset successfully constructed!"].
Proof.
  intros Hd Hwf Hall.
  destruct (verify_returns w V tr0 files Hd Hwf) as (tr & Hv & _ & _ & Hp).
  destruct (tally_after_zero w V (Verifier.listed w files)) as (H1 & H2 & H3).
  set (t := Verifier.tally_after w V (Verifier.listed w files)
              Verifier.tally_zero) in *.
  assert (Hc : Verifier.count t = Verifier.total t)
    by (rewrite H1, H2; now rewrite filter_all).
  assert (Hi : Verifier.incomplete t = false).
  { rewrite H3. apply not_true_iff_false. rewrite existsb_exists.
    intros (x & Hin & Hx). unfold Verifier.absent in Hx.
    rewrite (Hall x Hin) in Hx. discriminate. }
  exists tr, t. repeat split; try assumption.
  rewrite Hp, filter_none.
  - unfold Verifier.final_message, Verifier.complete_message.
    rewrite Hi, Hc. reflexivity.
  - intros x Hin. unfold Verifier.absent. now rewrite (Hall x Hin).
Qed.

Lemma complete_report_when_all_present_witness :
  Verifier.get_split_files Fixtures.w_full "3A" []
  = ([EvGlob Fixtures.pattern_3A],
     inr [Fixtures.train_3A; Fixtures.val_3A; Fixtures.test_3A]) /\
  Verifier.well_formed Fixtures.w_full
    [Fixtures.train_3A; Fixtures.val_3A; Fixtures.test_3A] /\
  (forall f,
      In f (Verifier.listed Fixtures.w_full
              [Fixtures.train_3A; Fixtures.val_3A; Fixtures.test_3A]) ->
      Verifier.present Fixtures.w_full "3A" f = true) /\
  exists tr t,
    Verifier.verify Fixtures.w_full "3A" [] = (tr, inr t) /\
    Verifier.count t = 3 /\
    Verifier.total t = 3 /\
    Verifier.incomplete t = false /\
    Verifier.printed tr
    = ["3/3 files created, dataset successfully constructed!"].
Proof.
  assert (Hd : Verifier.get_split_files Fixtures.w_full "3A" []
               = ([EvGlob Fixtures.pattern_3A],
                  inr [Fixtures.train_3A; Fixtures.val_3A; Fixtures.test_3A]))
    by reflexivity.
  assert (Hwf : Verifier.well_formed Fixtures.w_full
                  [Fixtures.train_3A; Fixtures.val_3A; Fixtures.test_3A])
    by (apply well_formedb_sound; reflexivity).
  assert (Hall : forall f,
             In f (Verifier.listed Fixtures.w_full
                     [Fixtures.train_3A; Fixtures.val_3A; Fixtures.test_3A]) ->
             Verifier.present Fixtures.w_full "3A" f = true).
  { intros f [<-|[<-|[<-|[]]]]; reflexivity. }
  split; [exact Hd|]. split; [exact Hwf|]. split; [exact Hall|].
  destruct (complete_report_when_all_present Fixtures.w_full "3A" _ _
              Hd Hwf Hall) as (tr & t & Hv & Hc & Ht & Hi & Hp).
  exists tr, t. rewrite Ht in Hp. rewrite Ht in Hc.
  repeat split; assumption.
Defined.

Lemma missing_file_does_not_stop_checking_witness :
  Verifier.get_split_files Fixtures.w_gap "3A" []
  = ([EvGlob Fixtures.pattern_3A],
     inr [Fixtures.train_3A; Fixtures.val_3A; Fixtures.test_3A]) /\
  Verifier.well_formed Fixtures.w_gap
    [Fixtures.train_3A; Fixtures.val_3A; Fixtures.test_3A] /\
  Verifier.listed Fixtures.w_gap
    [Fixtures.train_3A; Fixtures.val_3A; Fixtures.test_3A]
  = (["a.png"] ++ "x.png" :: ["b.png"; "y.png"])%list /\
  Verifier.present Fixtures.w_gap "3A" "x.png" = false /\
  exists tr t,
    Verifier.verify Fixtures.w_gap "3A" [] = (tr, inr t) /\
    Verifier.opened tr
    = [Fixtures.train_3A; Fixtures.val_3A; Fixtures.test_3A] /\
    Verifier.checked tr
    = ["data/COVIDx_CT-3A/a.png"; "data/COVIDx_CT-3A/x.png";
       "data/COVIDx_CT-3A/b.png"; "data/COVIDx_CT-3A/y.png"] /\
    Verifier.printed tr
    = ["Missing x.png"; "Missing y.png";
       Verifier.incomplete_message (Verifier.count t) (Verifier.total t)] /\
    Verifier.total t = 4.
Proof.
  assert (Hd : Verifier.get_split_files Fixtures.w_gap "3A" []
               = ([EvGlob Fixtures.pattern_3A],
                  inr [Fixtures.train_3A; Fixtures.val_3A; Fixtures.test_3A]))
    by reflexivity.
  assert (Hwf : Verifier.well_formed Fixtures.w_gap
                  [Fixtures.train_3A; Fixtures.val_3A; Fixtures.test_3A])
    by (apply well_formedb_sound; reflexivity).
  assert (Hl : Verifier.listed Fixtures.w_gap
                 [Fixtures.train_3A; Fixtures.val_3A; Fixtures.test_3A]
               = (["a.png"] ++ "x.png" :: ["b.png"; "y.png"])%list)
    by reflexivity.
  assert (Hf : Verifier.present Fixtures.w_gap "3A" "x.png" = false)
    by reflexivity.
  split; [exact Hd|]. split; [exact Hwf|]. split; [exact Hl|].
  split; [exact Hf|].
  exact (missing_file_does_not_stop_checking Fixtures.w_gap "3A" _ _
           ["a.png"] "x.png" ["b.png"; "y.png"] Hd Hwf Hl Hf).
Defined.

(** ** Lines with fewer than two tokens *)

Section ShortLines.
Import Verifier.

Variable w : world.
Variable V : string.

Lemma short_line_dec line : {short_line line} + {~ short_line line}.
Proof. unfold short_line. apply lt_dec. Qed.

Lemma printed_lines_only_missing fnames :
  only_missing_messages (printed (flat_map (line_events w V) fnames)).
Proof.
  rewrite printed_lines. apply Forall_forall. intros s Hs.
  apply in_map_iff in Hs. destruct Hs as (f & <- & _). now exists f.
Qed.

Lemma check_lines_raise lines t tr :
  Exists short_line lines ->
  exists fnames got,
    for_fold lines (check_line w V) t tr
    = ((tr ++ flat_map (line_events w V) fnames)%list,
       inl (UnpackError got))
    /\ got < 2.
Proof.
  intros H. revert t tr. induction lines as [|line lines IH]; intros t tr.
  - inversion H.
  - cbn [for_fold]. destruct (short_line_dec line) as [Hs|Hs].
    + exists [], (length (split_ws (strip_nl line))). split; [|exact Hs].
      rewrite (bind_raises _ _ _ _ _ (check_line_raises w V line t tr Hs)).
      cbn. now rewrite app_nil_r.
    + assert (Hw : well_formed_line line)
        by (unfold well_formed_line, short_line in *; lia).
      assert (Hr : Exists short_line lines)
        by (inversion H; [contradiction|assumption]).
      rewrite (bind_returns _ _ _ _ _ (check_line_returns w V line t tr Hw)).
      destruct (IH Hr (tally_after w V [fname_of line] t)
                  (tr ++ line_events w V (fname_of line))%list)
        as (fnames & got & Heq & Hgot).
      exists (fname_of line :: fnames), got. split; [|exact Hgot].
      rewrite Heq. cbn [flat_map]. now rewrite app_assoc.
Qed.

Lemma check_files_raise files t tr :
  (forall g, In g files -> readlines w g <> None) ->
  Exists (fun f => Exists short_line (lines_of w f)) files ->
  exists evs got,
    for_fold files (check_file w V) t tr
    = ((tr ++ evs)%list, inl (UnpackError got))
    /\ got < 2 /\ only_missing_messages (printed evs).
Proof.
  intros Hread H. revert t tr.
  induction files as [|f files IH]; intros t tr.
  - inversion H.
  - cbn [for_fold].
    destruct (readlines w f) as [lines|] eqn:Hr;
      [|exfalso; apply (Hread f (or_introl eq_refl)); exact Hr].
    destruct (Exists_dec short_line lines short_line_dec) as [Hs|Hs].
    + destruct (check_lines_raise lines t (tr ++ [EvOpen f])%list Hs)
        as (fnames & got & Heq & Hgot).
      exists (EvOpen f :: flat_map (line_events w V) fnames), got.
      split; [|split; [exact Hgot|]].
      * apply bind_raises. unfold check_file, open_readlines.
        rewrite Hr. unfold emit, modify, ret, bind at 1 2. cbn beta iota.
        rewrite Heq, <- app_assoc. reflexivity.
      * change (EvOpen f :: flat_map (line_events w V) fnames)
          with ([EvOpen f] ++ flat_map (line_events w V) fnames)%list.
        rewrite printed_app. apply printed_lines_only_missing.
    + assert (Hw : Forall well_formed_line lines).
      { apply Forall_forall. intros l Hl.
        destruct (short_line_dec l) as [Hsl|Hsl].
        - exfalso. apply Hs. apply Exists_exists. now exists l.
        - unfold well_formed_line, short_line in *. lia. }
      assert (Hrest : Exists (fun f => Exists short_line (lines_of w f)) files).
      { inversion H as [? ? Hh|? ? Ht]; [|exact Ht].
        unfold lines_of in Hh. rewrite Hr in Hh. contradiction. }
      rewrite (bind_returns _ _ _ _ _
                 (check_file_returns w V f lines t tr Hr Hw)).
      destruct (IH (fun g Hg => Hread g (or_intror Hg)) Hrest
                  (tally_after w V (map fname_of (lines_of w f)) t)
                  (tr ++ file_events w V f)%list)
        as (evs & got & Heq & Hgot & Hmsg).
      exists (file_events w V f ++ evs)%list, got.
      split; [|split; [exact Hgot|]].
      * rewrite Heq, app_assoc. reflexivity.
      * rewrite printed_app. apply Forall_app. split; [|exact Hmsg].
        unfold file_events.
        change (EvOpen f :: ?l) with ([EvOpen f] ++ l)%list.
        rewrite printed_app. apply printed_lines_only_missing.
Qed.

End ShortLines.

(** C10. When a discovered split file holds a line with fewer than two
    whitespace-separated tokens (the split files being readable), the
    unpacking of that line raises and the whole cell ends with that
    exception: no tally is returned and no final report is printed, only
    "Missing" lines for files checked before the exception. *)
Theorem short_line_aborts_verification (w : Verifier.world) (V : string)
    (tr0 : Verifier.trace) (files : list string) (f line : string) :
  Verifier.get_split_files w V [] = (tr0, inr files) ->
  (forall g, In g files -> Verifier.readlines w g <> None) ->
  In f files ->
  In line (Verifier.lines_of w f) ->
  length (split_ws (strip_nl line)) < 2 ->
  exists tr got,
    Verifier.verify w V [] = (tr, inl (UnpackError got)) /\
    got < 2 /\
    Forall (fun s => exists g, s = ("Missing " ++ g)%string)
           (Verifier.printed tr).
Proof.
  intros Hd Hread Hf Hline Hshort.
  assert (Hex : Exists (fun f => Exists Verifier.short_line (Verifier.lines_of w f))
                  files).
  { apply Exists_exists. exists f. split; [exact Hf|].
    apply Exists_exists. exists line. split; [exact Hline|exact Hshort]. }
  destruct (check_files_raise w V files Verifier.tally_zero tr0 Hread Hex)
    as (evs & got & Heq & Hgot & Hmsg).
  destruct (discovery_only_globs w V tr0 _ Hd) as (_ & Hp & _).
  exists (tr0 ++ evs)%list, got. split; [|split; [exact Hgot|]].
  - rewrite (verify_after_discovery w V tr0 files Hd).
    unfold Verifier.verification. apply bind_raises. exact Heq.
  - rewrite printed_app, Hp. exact Hmsg.
Qed.

(** On the split file whose second line is blank: the run stops there with
    "not enough values to unpack (expected 2, got 0)". *)
Lemma short_line_aborts_verification_witness :
  Verifier.get_split_files Fixtures.w_blank "3A" []
  = ([EvGlob Fixtures.pattern_3A],
     inr [Fixtures.train_3A; Fixtures.val_3A; Fixtures.test_3A]) /\
  (forall g, In g [Fixtures.train_3A; Fixtures.val_3A; Fixtures.test_3A] ->
             Verifier.readlines Fixtures.w_blank g <> None) /\
  In Fixtures.train_3A [Fixtures.train_3A; Fixtures.val_3A; Fixtures.test_3A] /\
  In Fixtures.nl (Verifier.lines_of Fixtures.w_blank Fixtures.train_3A) /\
  length (split_ws (strip_nl Fixtures.nl)) < 2 /\
  Verifier.verify Fixtures.w_blank "3A" []
  = ([EvGlob Fixtures.pattern_3A; EvOpen Fixtures.train_3A;
      EvExists "data/COVIDx_CT-3A/a.png"],
     inl (UnpackError 0)) /\
  exists tr got,
    Verifier.verify Fixtures.w_blank "3A" [] = (tr, inl (UnpackError got)) /\
    got < 2 /\
    Forall (fun s => exists g, s = ("Missing " ++ g)%string)
           (Verifier.printed tr).
Proof.
  assert (Hread : forall g,
             In g [Fixtures.train_3A; Fixtures.val_3A; Fixtures.test_3A] ->
             Verifier.readlines Fixtures.w_blank g <> None).
  { intros g [<-|[<-|[<-|[]]]]; discriminate. }
  assert (Hin : In Fixtures.nl
                  (Verifier.lines_of Fixtures.w_blank Fixtures.train_3A))
    by (right; left; reflexivity).
  assert (Hs : length (split_ws (strip_nl Fixtures.nl)) < 2)
    by (vm_compute; lia).
  split; [reflexivity|]. split; [exact Hread|].
  split; [left; reflexivity|]. split; [exact Hin|]. split; [exact Hs|].
  split; [reflexivity|].
  exact (short_line_aborts_verification Fixtures.w_blank "3A" _ _
           Fixtures.train_3A Fixtures.nl eq_refl Hread
           (or_introl eq_refl) Hin Hs).
Defined.

(** ** The data preparation cells *)

Section DriverFacts.
Import Driver.

Variable process : source -> string -> exn + output.
Variable V : string.
Variable outs : source -> output.
Hypothesis Hret : forall s, process s (OUTPUT_DIR V) = inr (outs s).

Lemma extended_nil st : extended outs st [] = st.
Proof. destruct st. unfold extended. cbn. now rewrite !app_nil_r. Qed.

Lemma extended_cons st s l :
  extended outs st (s :: l) = extended outs (extended outs st [s]) l.
Proof.
  unfold extended. cbn. now rewrite !app_nil_r, <- !app_assoc.
Qed.

Lemma extended_app st l1 l2 :
  extended outs (extended outs st l1) l2 = extended outs st (l1 ++ l2).
Proof.
  unfold extended. cbn. now rewrite !map_app, !concat_app, <- !app_assoc.
Qed.

Lemma process_source_returns s st :
  process_source process V s st = (extended outs st [s], inr tt).
Proof.
  unfold process_source, call, bind at 1. rewrite Hret.
  destruct (outs s) as [fnames cls] eqn:E.
  unfold extended. cbn. rewrite E. cbn. now rewrite !app_nil_r.
Qed.

Lemma process_sources_return l st :
  process_sources process V l st = (extended outs st l, inr tt).
Proof.
  revert st. induction l as [|s l IH]; intros st.
  - cbn. now rewrite extended_nil.
  - unfold process_sources in *. cbn [for_each].
    rewrite (bind_returns _ _ _ _ _ (process_source_returns s st)).
    now rewrite IH, <- extended_cons.
Qed.

Lemma cell_mosmed_B st :
  index_last V = inr "B"%char ->
  cell_mosmed process V st = (extended outs st [MosMedSeg; MosMedUnseg], inr tt).
Proof.
  intros HB. unfold cell_mosmed, lift, bind at 1. rewrite HB.
  rewrite Ascii.eqb_refl.
  rewrite (bind_returns _ _ _ _ _ (process_source_returns MosMedSeg st)).
  rewrite process_source_returns, <- extended_cons. reflexivity.
Qed.

Lemma cell_mosmed_other st :
  index_last V <> inr "B"%char ->
  fst (cell_mosmed process V st) = st.
Proof.
  intros HB. unfold cell_mosmed, lift, bind.
  destruct (index_last V) as [e|c]; [reflexivity|].
  destruct (Ascii.eqb c "B") eqn:E; [|reflexivity].
  apply Ascii.eqb_eq in E. subst c. contradiction.
Qed.

Lemma data_preparation_base :
  data_preparation process V cell_lists
  = cell_mosmed process V (extended outs cell_lists base_sources).
Proof.
  unfold data_preparation.
  repeat (erewrite bind_returns; [|apply process_source_returns]).
  f_equal. rewrite !extended_app. reflexivity.
Qed.

Lemma is_B_variant_true : is_B_variant V = true <-> index_last V = inr "B"%char.
Proof.
  unfold is_B_variant. destruct (index_last V) as [e|c].
  - split; discriminate.
  - rewrite Ascii.eqb_eq. split; congruence.
Qed.

Lemma data_preparation_state :
  fst (data_preparation process V cell_lists)
  = extended outs cell_lists (invocation_order V).
Proof.
  rewrite data_preparation_base. unfold invocation_order.
  destruct (is_B_variant V) eqn:E.
  - apply is_B_variant_true in E. rewrite (cell_mosmed_B _ E).
    cbn [fst]. apply extended_app.
  - rewrite cell_mosmed_other.
    + now rewrite app_nil_r.
    + intros HB. apply is_B_variant_true in HB. congruence.
Qed.

End DriverFacts.

Lemma concat_lengths_agree (outs : Driver.source -> Driver.output)
    (l : list Driver.source) :
  (forall s, length (fst (outs s)) = length (snd (outs s))) ->
  length (concat (map (fun s => fst (outs s)) l))
  = length (concat (map (fun s => snd (outs s)) l)).
Proof.
  intros H. induction l as [|s l IH]; [reflexivity|].
  cbn. rewrite !length_app, IH, H. reflexivity.
Qed.

(** C8. For every version tag (the processors returning normally): when its
    last character is 'B' the two MosMedData processors are invoked after
    the other sources and their lists are appended to the manifest; for any
    other tag neither is invoked and the manifest holds the other sources'
    lists only. *)
Theorem mosmed_processed_iff_B_variant
    (process : Driver.source -> string -> exn + Driver.output) (V : string)
    (outs : Driver.source -> Driver.output) :
  (forall s, process s (Driver.OUTPUT_DIR V) = inr (outs s)) ->
  let st := fst (Driver.data_preparation process V Driver.cell_lists) in
  let base_filenames :=
    concat (map (fun s => fst (outs s)) Driver.base_sources) in
  let base_classes :=
    concat (map (fun s => snd (outs s)) Driver.base_sources) in
  (In Driver.MosMedSeg (Driver.invoked st)
   /\ In Driver.MosMedUnseg (Driver.invoked st)
   <-> index_last V = inr "B"%char) /\
  (index_last V = inr "B"%char ->
   Driver.invoked st
   = (Driver.base_sources ++ [Driver.MosMedSeg; Driver.MosMedUnseg])%list /\
   Driver.filenames st
   = (base_filenames ++ fst (outs Driver.MosMedSeg)
        ++ fst (outs Driver.MosMedUnseg))%list /\
   Driver.classes st
   = (base_classes ++ snd (outs Driver.MosMedSeg)
        ++ snd (outs Driver.MosMedUnseg))%list) /\
  (index_last V <> inr "B"%char ->
   Driver.invoked st = Driver.base_sources /\
   Driver.filenames st = base_filenames /\
   Driver.classes st = base_classes).
Proof.
  intros Hret st bf bc.
  assert (Hst : st = Driver.extended outs Driver.cell_lists
                       (Driver.invocation_order V))
    by apply (data_preparation_state process V outs Hret).
  assert (HB : index_last V = inr "B"%char ->
               Driver.invocation_order V
               = (Driver.base_sources
                    ++ [Driver.MosMedSeg; Driver.MosMedUnseg])%list).
  { intros H. apply is_B_variant_true in H.
    unfold Driver.invocation_order. now rewrite H. }
  assert (HnB : index_last V <> inr "B"%char ->
                Driver.invocation_order V = Driver.base_sources).
  { intros H. unfold Driver.invocation_order.
    destruct (Driver.is_B_variant V) eqn:E.
    - apply is_B_variant_true in E. contradiction.
    - apply app_nil_r. }
  split; [|split].
  - split.
    + intros [Hin _]. destruct (Driver.is_B_variant V) eqn:E.
      * now apply is_B_variant_true.
      * exfalso. rewrite Hst in Hin. unfold Driver.invocation_order in Hin.
        rewrite E in Hin. cbn in Hin.
        repeat (destruct Hin as [Hin|Hin]; [discriminate Hin|]).
        exact Hin.
    + intros H. rewrite Hst, (HB H). cbn. tauto.
  - intros H. rewrite Hst, (HB H). unfold Driver.extended. cbn [app
      Driver.cell_lists Driver.invoked Driver.filenames Driver.classes].
    rewrite !map_app, !concat_app. cbn [map concat].
    rewrite !app_nil_r. repeat split.
  - intros H. rewrite Hst, (HnB H). repeat split.
Qed.

Lemma mosmed_processed_iff_B_variant_witness :
  (forall s,
      (fun s o => inr (Driver.sample_process s o)) s (Driver.OUTPUT_DIR "3B")
      = inr (Driver.sample_process s (Driver.OUTPUT_DIR "3B"))
        :> exn + Driver.output) /\
  let st := fst (Driver.data_preparation
                   (fun s o => inr (Driver.sample_process s o)) "3B"
                   Driver.cell_lists) in
  Driver.invoked st
  = (Driver.base_sources ++ [Driver.MosMedSeg; Driver.MosMedUnseg])%list /\
  Driver.filenames st
  = ["cncb_0.png"; "cncb_1.png"; "lidc_0.png"; "mosmed_seg_0.png";
     "mosmed_0.png"; "mosmed_1.png"] /\
  Driver.classes st = [0; 2; 0; 2; 2; 0]%Z.
Proof.
  split; [reflexivity|].
  exact (proj1 (proj2 (mosmed_processed_iff_B_variant
                         (fun s o => inr (Driver.sample_process s o)) "3B"
                         (fun s => Driver.sample_process s (Driver.OUTPUT_DIR "3B"))
                         (fun s => eq_refl)))
               eq_refl).
Defined.

(** C9. When every processor returns a filename list and a class list of
    equal length: after each invocation of the run, in the order of the
    cells, the global lists [filenames] and [classes] have equal length and
    are the concatenation of the lists returned so far; the state the cells
    end in is the one after the last invocation. *)
Theorem manifest_lists_stay_parallel
    (process : Driver.source -> string -> exn + Driver.output) (V : string)
    (outs : Driver.source -> Driver.output) :
  (forall s, process s (Driver.OUTPUT_DIR V) = inr (outs s)) ->
  (forall s, length (fst (outs s)) = length (snd (outs s))) ->
  (forall n,
      let done := firstn n (Driver.invocation_order V) in
      let st := fst (Driver.process_sources process V done Driver.cell_lists) in
      length (Driver.filenames st) = length (Driver.classes st) /\
      Driver.filenames st = concat (map (fun s => fst (outs s)) done) /\
      Driver.classes st = concat (map (fun s => snd (outs s)) done) /\
      Driver.invoked st = done) /\
  (let st := fst (Driver.data_preparation process V Driver.cell_lists) in
   st = fst (Driver.process_sources process V (Driver.invocation_order V)
               Driver.cell_lists) /\
   length (Driver.filenames st) = length (Driver.classes st) /\
   Driver.filenames st
   = concat (map (fun s => fst (outs s)) (Driver.invocation_order V)) /\
   Driver.classes st
   = concat (map (fun s => snd (outs s)) (Driver.invocation_order V))).
Proof.
  intros Hret Hlen. split.
  - intros n done st. subst st.
    rewrite (process_sources_return process V outs Hret).
    unfold Driver.extended.
    cbn [fst Driver.filenames Driver.classes Driver.invoked
         Driver.cell_lists app].
    repeat split. now apply concat_lengths_agree.
  - cbv zeta.
    rewrite (process_sources_return process V outs Hret).
    rewrite (data_preparation_state process V outs Hret).
    unfold Driver.extended.
    cbn [fst Driver.filenames Driver.classes Driver.invoked
         Driver.cell_lists app].
    repeat split. now apply concat_lengths_agree.
Qed.

Lemma manifest_lists_stay_parallel_witness :
  (forall s,
      (fun s o => inr (Driver.sample_process s o)) s (Driver.OUTPUT_DIR "3B")
      = inr (Driver.sample_process s (Driver.OUTPUT_DIR "3B"))
        :> exn + Driver.output) /\
  (forall s,
      length (fst (Driver.sample_process s (Driver.OUTPUT_DIR "3B")))
      = length (snd (Driver.sample_process s (Driver.OUTPUT_DIR "3B")))) /\
  let st := fst (Driver.data_preparation
                   (fun s o => inr (Driver.sample_process s o)) "3B"
                   Driver.cell_lists) in
  length (Driver.filenames st) = length (Driver.classes st) /\
  Driver.filenames st
  = ["cncb_0.png"; "cncb_1.png"; "lidc_0.png"; "mosmed_seg_0.png";
     "mosmed_0.png"; "mosmed_1.png"] /\
  Driver.classes st = [0; 2; 0; 2; 2; 0]%Z.
Proof.
  assert (Hlen : forall s,
             length (fst (Driver.sample_process s (Driver.OUTPUT_DIR "3B")))
             = length (snd (Driver.sample_process s (Driver.OUTPUT_DIR "3B"))))
    by (intros []; reflexivity).
  split; [reflexivity|]. split; [exact Hlen|].
  exact (proj2 (proj2 (manifest_lists_stay_parallel
                         (fun s o => inr (Driver.sample_process s o)) "3B"
                         (fun s => Driver.sample_process s (Driver.OUTPUT_DIR "3B"))
                         (fun s => eq_refl) Hlen))).
Defined.

(** ** The image count cell *)

(** C1. On the classes [0,0,2,1] the cell prints the header and then raises
    [TypeError] when it indexes the emptied [counts] list with a boolean
    array: no class is reported, whereas the described report is Normal: 2,
    Pneumonia: 1, COVID-19: 1 (the very counts [np.unique] had computed
    before they were overwritten); the same happens for every classes
    list. *)
Theorem image_counts_are_not_reported :
  ImageCounts.print_image_counts [0; 0; 2; 1]%Z []
  = ([EvPrint "Image Counts"], inl TypeError) /\
  ImageCounts.np_unique_counts [0; 0; 2; 1]%Z = ([0; 1; 2]%Z, [2; 1; 1]) /\
  ImageCounts.described_report [0; 0; 2; 1]%Z
  = [EvPrint "Image Counts"; EvPrint "Normal: 2"; EvPrint "Pneumonia: 1";
     EvPrint "COVID-19: 1"] /\
  forall classes,
    ImageCounts.print_image_counts classes []
    = ([EvPrint "Image Counts"], inl TypeError) /\
    fst (ImageCounts.print_image_counts classes [])
    <> ImageCounts.described_report classes.
Proof.
  split; [reflexivity|]. split; [reflexivity|]. split; [reflexivity|].
  intros classes.
  assert (H : ImageCounts.print_image_counts classes []
              = ([EvPrint "Image Counts"], inl TypeError)).
  { unfold ImageCounts.print_image_counts.
    destruct (ImageCounts.np_unique_counts classes). reflexivity. }
  split; [exact H|]. rewrite H. cbn. discriminate.
Qed.


(** * Further properties of the cells *)

(** ** Data preparation when processors may raise *)

Lemma bind_pointwise {S A B} (m : M S A) (k k' : A -> M S B) s :
  (forall a s', k a s' = k' a s') -> bind m k s = bind m k' s.
Proof.
  intros H. unfold bind. destruct (m s) as [s' [e|a]]; [reflexivity|apply H].
Qed.

Lemma bind_bind {S A B C} (m : M S A) (k : A -> M S B) (h : B -> M S C) s :
  bind (bind m k) h s = bind m (fun a => bind (k a) h) s.
Proof. unfold bind. destruct (m s) as [s' [e|a]]; reflexivity. Qed.

Lemma for_each_then {S A} (l1 l2 : list A) (body : A -> M S unit)
    (k : M S unit) s :
  bind (for_each (l1 ++ l2) body) (fun _ => k) s
  = bind (for_each l1 body)
         (fun _ => bind (for_each l2 body) (fun _ => k)) s.
Proof.
  revert s. induction l1 as [|x l1 IH]; intros s.
  - reflexivity.
  - cbn [app for_each]. rewrite !bind_bind.
    apply bind_pointwise. intros _ s'. apply IH.
Qed.

Lemma index_last_nonempty (c : ascii) (r : string) :
  exists d, index_last (String c r) = inr d.
Proof.
  revert c. induction r as [|c' r IH]; intros c.
  - now exists c.
  - destruct (IH c') as [d Hd]. exists d.
    change (index_last (String c (String c' r)))
      with (index_last (String c' r)). exact Hd.
Qed.

Section DriverOutcomes.
Import Driver.

Variable process : source -> string -> exn + output.
Variable V : string.

Lemma process_source_returns_at s o st :
  process s (OUTPUT_DIR V) = inr o ->
  process_source process V s st
  = ({| filenames := filenames st ++ fst o;
        classes := classes st ++ snd o;
        invoked := invoked st ++ [s] |}, inr tt).
Proof.
  intros H. unfold process_source, call, bind at 1. rewrite H.
  destruct o as [fnames cls]. reflexivity.
Qed.

Lemma process_source_raises_at s e st :
  process s (OUTPUT_DIR V) = inl e ->
  process_source process V s st
  = ({| filenames := filenames st; classes := classes st;
        invoked := invoked st ++ [s] |}, inl e).
Proof.
  intros H. unfold process_source, call, bind. rewrite H. reflexivity.
Qed.

Lemma data_preparation_cells st :
  data_preparation process V st
  = bind (process_sources process V base_sources)
         (fun _ => cell_mosmed process V) st.
Proof.
  unfold data_preparation, process_sources, base_sources. cbn [for_each].
  unfold bind.
  repeat match goal with
         | |- context [process_source process V ?s ?st] =>
             destruct (process_source process V s st) as [? [?|[]]];
             [reflexivity|]
         end.
  reflexivity.
Qed.

Lemma cell_mosmed_sources st :
  cell_mosmed process V st
  = bind (process_sources process V
            (if is_B_variant V then [MosMedSeg; MosMedUnseg] else []))
         (fun _ => version_check V) st.
Proof.
  unfold cell_mosmed, is_B_variant, process_sources, lift.
  destruct V as [|c r].
  - reflexivity.
  - destruct (index_last_nonempty c r) as [d Hd].
    unfold bind at 1. rewrite Hd.
    destruct (Ascii.eqb d "B"); [|reflexivity].
    cbn [for_each version_check]. unfold bind, ret.
    destruct (process_source process (String c r) MosMedSeg st)
      as [s1 [e|[]]]; [reflexivity|].
    destruct (process_source process (String c r) MosMedUnseg s1)
      as [s2 [e|[]]]; reflexivity.
Qed.

Lemma data_preparation_sources st :
  data_preparation process V st
  = bind (process_sources process V (invocation_order V))
         (fun _ => version_check V) st.
Proof.
  rewrite data_preparation_cells. unfold invocation_order, process_sources.
  rewrite for_each_then. apply bind_pointwise. intros _ s'.
  apply cell_mosmed_sources.
Qed.

Lemma version_check_keeps_state (m : M manifest unit) st :
  fst (bind m (fun _ => version_check V) st) = fst (m st).
Proof.
  unfold bind. destruct (m st) as [s' [e|[]]]; [reflexivity|].
  destruct V; reflexivity.
Qed.

Lemma extended_returned_one s st :
  fst (process_source process V s st) = extended (returned process V) st [s].
Proof.
  unfold extended, returned. cbn [map concat].
  destruct (process s (OUTPUT_DIR V)) as [e|o] eqn:E.
  - rewrite (process_source_raises_at s e st E). cbn.
    now rewrite !app_nil_r.
  - rewrite (process_source_returns_at s o st E). cbn.
    now rewrite !app_nil_r.
Qed.

(** The state a run of [l] ends in is the one after a prefix of [l]; the
    whole of [l] when it ends normally. *)
Lemma process_sources_prefix l st :
  exists j,
    fst (process_sources process V l st)
    = extended (returned process V) st (firstn j l).
Proof.
  revert st. induction l as [|s l IH]; intros st.
  - exists 0. cbn. now rewrite extended_nil.
  - unfold process_sources in *. cbn [for_each]. unfold bind.
    pose proof (extended_returned_one s st) as H1.
    destruct (process_source process V s st) as [s1 [e|[]]]; cbn [fst] in *.
    + exists 1. now rewrite H1.
    + destruct (IH s1) as [j Hj]. exists (S j). rewrite Hj, H1.
      cbn [firstn]. now rewrite extended_app.
Qed.

Lemma data_preparation_prefix :
  exists j,
    fst (data_preparation process V cell_lists)
    = extended (returned process V) cell_lists
        (firstn j (invocation_order V)).
Proof.
  destruct (process_sources_prefix (invocation_order V) cell_lists) as [j Hj].
  exists j. rewrite data_preparation_sources, version_check_keeps_state.
  exact Hj.
Qed.

Lemma process_sources_raise l1 s l2 e (outs : source -> output) st :
  (forall x, In x l1 -> process x (OUTPUT_DIR V) = inr (outs x)) ->
  process s (OUTPUT_DIR V) = inl e ->
  process_sources process V (l1 ++ s :: l2) st
  = ({| filenames := filenames (extended outs st l1);
        classes := classes (extended outs st l1);
        invoked := invoked st ++ l1 ++ [s] |}, inl e).
Proof.
  intros Hl1 Hs. revert st. induction l1 as [|x l1 IH]; intros st.
  - unfold process_sources. cbn [app for_each].
    rewrite (bind_raises _ _ _ _ _ (process_source_raises_at s e st Hs)).
    unfold extended. cbn. now rewrite !app_nil_r.
  - unfold process_sources in *. cbn [app for_each].
    rewrite (bind_returns _ _ _ _ _
               (process_source_returns_at x (outs x) st
                  (Hl1 x (or_introl eq_refl)))).
    rewrite IH by (intros y Hy; apply Hl1; now right).
    unfold extended. cbn. now rewrite <- !app_assoc.
Qed.

End DriverOutcomes.

Lemma NoDup_prefix {A} (l : list A) (j : nat) : NoDup l -> NoDup (firstn j l).
Proof.
  intros H. rewrite <- (firstn_skipn j l) in H.
  exact (NoDup_app_remove_r _ _ H).
Qed.

Lemma invocation_order_NoDup (V : string) : NoDup (Driver.invocation_order V).
Proof.
  unfold Driver.invocation_order, Driver.base_sources.
  destruct (Driver.is_B_variant V); cbn [app];
    repeat (constructor; [cbn; intuition discriminate|]); constructor.
Qed.

Lemma returned_lengths_agree
    (process : Driver.source -> string -> exn + Driver.output) (V : string) :
  (forall s o, process s (Driver.OUTPUT_DIR V) = inr o ->
               length (fst o) = length (snd o)) ->
  forall s, length (fst (Driver.returned process V s))
            = length (snd (Driver.returned process V s)).
Proof.
  intros H s. unfold Driver.returned.
  destruct (process s (Driver.OUTPUT_DIR V)) as [e|o] eqn:E;
    [reflexivity|exact (H s o E)].
Qed.

(** X1. When a processor raises, the run stops there: the processors after it
    are not invoked, the exception is the run's result, and the manifest
    holds the lists of the processors before it, in order. *)
Theorem processor_failure_aborts_run
    (process : Driver.source -> string -> exn + Driver.output) (V : string)
    (outs : Driver.source -> Driver.output)
    (l1 : list Driver.source) (s : Driver.source) (l2 : list Driver.source)
    (e : exn) :
  Driver.invocation_order V = (l1 ++ s :: l2)%list ->
  (forall x, In x l1 -> process x (Driver.OUTPUT_DIR V) = inr (outs x)) ->
  process s (Driver.OUTPUT_DIR V) = inl e ->
  Driver.data_preparation process V Driver.cell_lists
  = ({| Driver.filenames := concat (map (fun x => fst (outs x)) l1);
        Driver.classes := concat (map (fun x => snd (outs x)) l1);
        Driver.invoked := (l1 ++ [s])%list |}, inl e).
Proof.
  intros Hord Hl1 Hs. rewrite data_preparation_sources, Hord.
  apply bind_raises.
  apply (process_sources_raise process V l1 s l2 e outs Driver.cell_lists
           Hl1 Hs).
Qed.

Lemma processor_failure_aborts_run_witness :
  Driver.invocation_order "3B"
  = ([Driver.CNCB; Driver.RadiopaediaCoronacasesSeg; Driver.Radiopaedia]
       ++ Driver.LIDC_IDRI
       :: [Driver.COVID_19_20; Driver.TCIA_COVID; Driver.COVID_CTset;
           Driver.ICTCF; Driver.COVID_CT_MD; Driver.STOIC; Driver.StonyBrook;
           Driver.MosMedSeg; Driver.MosMedUnseg])%list /\
  (forall x,
      In x [Driver.CNCB; Driver.RadiopaediaCoronacasesSeg; Driver.Radiopaedia] ->
      Driver.sample_process_lidc_fails x (Driver.OUTPUT_DIR "3B")
      = inr (Driver.sample_process x (Driver.OUTPUT_DIR "3B"))) /\
  Driver.sample_process_lidc_fails Driver.LIDC_IDRI (Driver.OUTPUT_DIR "3B")
  = inl (ProcessorError "lidc_idri_metadata.csv not found") /\
  Driver.data_preparation Driver.sample_process_lidc_fails "3B"
    Driver.cell_lists
  = ({| Driver.filenames := ["cncb_0.png"; "cncb_1.png"];
        Driver.classes := [0; 2]%Z;
        Driver.invoked := [Driver.CNCB; Driver.RadiopaediaCoronacasesSeg;
                           Driver.Radiopaedia; Driver.LIDC_IDRI] |},
     inl (ProcessorError "lidc_idri_metadata.csv not found")).
Proof.
  assert (Hl1 : forall x,
             In x [Driver.CNCB; Driver.RadiopaediaCoronacasesSeg;
                   Driver.Radiopaedia] ->
             Driver.sample_process_lidc_fails x (Driver.OUTPUT_DIR "3B")
             = inr (Driver.sample_process x (Driver.OUTPUT_DIR "3B"))).
  { intros x [<-|[<-|[<-|[]]]]; reflexivity. }
  split; [reflexivity|]. split; [exact Hl1|]. split; [reflexivity|].
  exact (processor_failure_aborts_run Driver.sample_process_lidc_fails "3B"
           (fun x => Driver.sample_process x (Driver.OUTPUT_DIR "3B"))
           [Driver.CNCB; Driver.RadiopaediaCoronacasesSeg; Driver.Radiopaedia]
           Driver.LIDC_IDRI _ _ eq_refl Hl1 eq_refl).
Defined.

(** X2. Whatever the processors do (return or raise), the processors invoked by
    a run are an initial segment of the fixed invocation order: none is
    invoked twice and none out of order. *)
Theorem processors_invoked_once_in_order
    (process : Driver.source -> string -> exn + Driver.output) (V : string) :
  exists j,
    Driver.invoked (fst (Driver.data_preparation process V Driver.cell_lists))
    = firstn j (Driver.invocation_order V) /\
    NoDup (Driver.invoked
             (fst (Driver.data_preparation process V Driver.cell_lists))).
Proof.
  destruct (data_preparation_prefix process V) as [j Hj].
  exists j. rewrite Hj. cbn [Driver.extended Driver.invoked Driver.cell_lists app].
  split; [reflexivity|].
  apply NoDup_prefix, invocation_order_NoDup.
Qed.

(** X3. The two global lists have equal length at the end of every run, also of
    one a processor's exception cut short, as long as the processors that
    return hand back lists of equal length. *)
Theorem manifest_parallel_even_on_abort
    (process : Driver.source -> string -> exn + Driver.output) (V : string) :
  (forall s o, process s (Driver.OUTPUT_DIR V) = inr o ->
               length (fst o) = length (snd o)) ->
  let st := fst (Driver.data_preparation process V Driver.cell_lists) in
  length (Driver.filenames st) = length (Driver.classes st).
Proof.
  intros H st. subst st.
  destruct (data_preparation_prefix process V) as [j Hj]. rewrite Hj.
  cbn [Driver.extended Driver.filenames Driver.classes Driver.cell_lists app].
  apply concat_lengths_agree, returned_lengths_agree, H.
Qed.

Lemma manifest_parallel_even_on_abort_witness :
  (forall s o,
      Driver.sample_process_lidc_fails s (Driver.OUTPUT_DIR "3B") = inr o ->
      length (fst o) = length (snd o)) /\
  snd (Driver.data_preparation Driver.sample_process_lidc_fails "3B"
         Driver.cell_lists)
  = inl (ProcessorError "lidc_idri_metadata.csv not found") /\
  length (Driver.filenames
            (fst (Driver.data_preparation Driver.sample_process_lidc_fails
                    "3B" Driver.cell_lists)))
  = length (Driver.classes
              (fst (Driver.data_preparation Driver.sample_process_lidc_fails
                      "3B" Driver.cell_lists))).
Proof.
  assert (H : forall s o,
             Driver.sample_process_lidc_fails s (Driver.OUTPUT_DIR "3B")
             = inr o -> length (fst o) = length (snd o)).
  { intros s o E. destruct s; cbn in E; inversion E; reflexivity. }
  split; [exact H|]. split; [reflexivity|].
  exact (manifest_parallel_even_on_abort Driver.sample_process_lidc_fails
           "3B" H).
Defined.

(** X4. With processors that return, the data preparation ends normally exactly
    when the version tag is not empty; on the empty tag it raises
    [IndexError] in the last cell, after the eleven other sources have been
    processed and appended. *)
Theorem run_ends_normally_iff_version_nonempty
    (process : Driver.source -> string -> exn + Driver.output) (V : string)
    (outs : Driver.source -> Driver.output) :
  (forall s, process s (Driver.OUTPUT_DIR V) = inr (outs s)) ->
  (snd (Driver.data_preparation process V Driver.cell_lists) = inr tt
   <-> V <> "") /\
  (V = "" ->
   Driver.data_preparation process V Driver.cell_lists
   = (Driver.extended outs Driver.cell_lists Driver.base_sources,
      inl IndexError)).
Proof.
  intros Hret.
  assert (H : Driver.data_preparation process V Driver.cell_lists
              = Driver.version_check V
                  (Driver.extended outs Driver.cell_lists
                     (Driver.invocation_order V))).
  { rewrite data_preparation_sources.
    now rewrite (bind_returns _ _ _ _ _
                   (process_sources_return process V outs Hret
                      (Driver.invocation_order V) Driver.cell_lists)). }
  rewrite H. destruct V as [|c r].
  - split; [split; [discriminate|congruence]|]. intros _. reflexivity.
  - split; [split; [discriminate|reflexivity]|]. discriminate.
Qed.

Lemma run_ends_normally_iff_version_nonempty_witness :
  (forall s,
      (fun s o => inr (Driver.sample_process s o)) s (Driver.OUTPUT_DIR "")
      = inr (Driver.sample_process s (Driver.OUTPUT_DIR ""))
        :> exn + Driver.output) /\
  Driver.data_preparation (fun s o => inr (Driver.sample_process s o)) ""
    Driver.cell_lists
  = (Driver.extended (fun s => Driver.sample_process s (Driver.OUTPUT_DIR ""))
       Driver.cell_lists Driver.base_sources,
     inl IndexError).
Proof.
  split; [reflexivity|].
  exact (proj2 (run_ends_normally_iff_version_nonempty
                  (fun s o => inr (Driver.sample_process s o)) ""
                  (fun s => Driver.sample_process s (Driver.OUTPUT_DIR ""))
                  (fun s => eq_refl))
               eq_refl).
Defined.

(** ** Every way the verification cell can end *)

Lemma for_fold_append {S A T} (l1 l2 : list A) (body : A -> T -> M S T)
    acc s :
  for_fold (l1 ++ l2) body acc s
  = bind (for_fold l1 body acc) (for_fold l2 body) s.
Proof.
  revert acc s. induction l1 as [|x l1 IH]; intros acc s.
  - reflexivity.
  - cbn [app for_fold]. rewrite bind_bind. apply bind_pointwise.
    intros a s'. apply IH.
Qed.

Lemma filter_split_length {A} (p : A -> bool) (l : list A) :
  length (filter p l) + length (filter (fun x => negb (p x)) l) = length l.
Proof.
  induction l as [|x l IH]; [reflexivity|].
  cbn. destruct (p x); cbn; lia.
Qed.

Lemma existsb_negb_filter {A} (p : A -> bool) (l : list A) :
  existsb (fun x => negb (p x)) l = false
  <-> length (filter p l) = length l.
Proof.
  induction l as [|x l IH]; [cbn; tauto|].
  cbn. pose proof (filter_length_le p l). destruct (p x); cbn.
  - rewrite IH. lia.
  - split; [discriminate|lia].
Qed.

Section VerifierOutcomes.
Import Verifier.

Variable w : world.
Variable V : string.

Lemma check_file_unreadable f t tr :
  readlines w f = None ->
  check_file w V f t tr = ((tr ++ [EvOpen f])%list, inl (OSError f)).
Proof.
  intros H. unfold check_file, open_readlines. rewrite H. reflexivity.
Qed.

(** Either every split file is readable and well formed, or the loop ends
    with the exception of the first offending file. *)
Lemma check_files_outcome files t tr :
  well_formed w files \/
  exists evs e,
    for_fold files (check_file w V) t tr = ((tr ++ evs)%list, inl e) /\
    only_missing_messages (printed evs) /\
    ((exists f, In f files /\ readlines w f = None /\ e = OSError f) \/
     (exists got, got < 2 /\ e = UnpackError got)).
Proof.
  revert t tr. induction files as [|f files IH]; intros t tr.
  - left. constructor.
  - destruct (readlines w f) as [lines|] eqn:Hr.
    + destruct (Exists_dec short_line lines short_line_dec) as [Hs|Hs].
      * right.
        destruct (check_lines_raise w V lines t (tr ++ [EvOpen f])%list Hs)
          as (fnames & got & Heq & Hgot).
        exists (EvOpen f :: flat_map (line_events w V) fnames),
               (UnpackError got).
        split; [|split].
        -- cbn [for_fold]. apply bind_raises.
           unfold check_file, open_readlines. rewrite Hr.
           unfold emit, modify, ret, bind at 1 2. cbn beta iota.
           rewrite Heq, <- app_assoc. reflexivity.
        -- change (EvOpen f :: flat_map (line_events w V) fnames)
             with ([EvOpen f] ++ flat_map (line_events w V) fnames)%list.
           rewrite printed_app. apply printed_lines_only_missing.
        -- right. now exists got.
      * assert (Hw : Forall well_formed_line lines).
        { apply Forall_forall. intros l Hl.
          destruct (short_line_dec l) as [Hsl|Hsl].
          - exfalso. apply Hs. apply Exists_exists. now exists l.
          - unfold well_formed_line, short_line in *. lia. }
        destruct (IH (tally_after w V (map fname_of (lines_of w f)) t)
                     (tr ++ file_events w V f)%list)
          as [Hwf|(evs & e & Heq & Hmsg & Hcase)].
        -- left. constructor; [now exists lines|exact Hwf].
        -- right. exists (file_events w V f ++ evs)%list, e.
           split; [|split].
           ++ cbn [for_fold].
              rewrite (bind_returns _ _ _ _ _
                         (check_file_returns w V f lines t tr Hr Hw)).
              rewrite Heq, app_assoc. reflexivity.
           ++ rewrite printed_app. apply Forall_app. split; [|exact Hmsg].
              unfold file_events.
              change (EvOpen f :: ?l) with ([EvOpen f] ++ l)%list.
              rewrite printed_app. apply printed_lines_only_missing.
           ++ destruct Hcase as [(g & Hg & Hrg & He)|Hcase].
              ** left. exists g. split; [now right|now split].
              ** now right.
    + right. exists [EvOpen f], (OSError f). split; [|split].
      * cbn [for_fold]. apply bind_raises.
        now apply check_file_unreadable.
      * constructor.
      * left. exists f. split; [now left|now split].
Qed.


End VerifierOutcomes.

(** X5. The verification cell returns normally exactly when the discovery
    returns split files and each of them opens and has at least two tokens
    on every line. *)
Theorem verify_returns_iff_well_formed (w : Verifier.world) (V : string) :
  (exists tr t, Verifier.verify w V [] = (tr, inr t)) <->
  (exists tr0 files,
      Verifier.get_split_files w V [] = (tr0, inr files) /\
      Verifier.well_formed w files).
Proof.
  split.
  - intros (tr & t & Hv).
    destruct (Verifier.get_split_files w V []) as [tr0 [e|files]] eqn:Hd.
    + unfold Verifier.verify in Hv.
      rewrite (bind_raises _ _ _ _ _ Hd) in Hv. discriminate Hv.
    + exists tr0, files. split; [reflexivity|].
      destruct (check_files_outcome w V files Verifier.tally_zero tr0)
        as [Hwf|(evs & e & Heq & _)]; [exact Hwf|].
      rewrite (verify_after_discovery w V tr0 files Hd) in Hv.
      unfold Verifier.verification in Hv.
      rewrite (bind_raises _ _ _ _ _ Heq) in Hv. discriminate Hv.
  - intros (tr0 & files & Hd & Hwf).
    destruct (verify_returns w V tr0 files Hd Hwf) as (tr & Hv & _).
    now exists tr, (Verifier.tally_after w V (Verifier.listed w files)
                      Verifier.tally_zero).
Qed.



(** X7. A split file that cannot be opened ends the run with its [OSError]: the
    files before it have been checked (their missing filenames printed), it
    is the last file opened, the files after it are not read and no report
    is printed. *)
Theorem unreadable_split_file_aborts (w : Verifier.world) (V : string)
    (tr0 : Verifier.trace) (fs1 : list string) (f : string)
    (fs2 : list string) :
  Verifier.get_split_files w V [] = (tr0, inr (fs1 ++ f :: fs2)%list) ->
  Verifier.well_formed w fs1 ->
  Verifier.readlines w f = None ->
  exists tr,
    Verifier.verify w V [] = (tr, inl (OSError f)) /\
    Verifier.opened tr = (fs1 ++ [f])%list /\
    Verifier.checked tr
    = map (path_join (Verifier.OUTPUT_DIR V)) (Verifier.listed w fs1) /\
    Verifier.printed tr
    = map Verifier.missing_message
          (filter (Verifier.absent w V) (Verifier.listed w fs1)).
Proof.
  intros Hd Hwf Hr.
  destruct (discovery_only_globs w V tr0 _ Hd) as (Hc & Hp & Ho).
  exists (tr0 ++ flat_map (Verifier.file_events w V) fs1 ++ [EvOpen f])%list.
  split.
  - rewrite (verify_after_discovery w V tr0 _ Hd).
    unfold Verifier.verification. apply bind_raises.
    rewrite for_fold_append.
    rewrite (bind_returns _ _ _ _ _
               (check_files_return w V fs1 Verifier.tally_zero tr0 Hwf)).
    cbn [for_fold]. rewrite app_assoc. apply bind_raises.
    now apply check_file_unreadable.
  - rewrite !opened_app, !checked_app, !printed_app, Hc, Hp, Ho.
    rewrite opened_files, checked_files, printed_files. cbn.
    now rewrite !app_nil_r.
Qed.

Lemma unreadable_split_file_aborts_witness :
  Verifier.get_split_files Fixtures.w_unreadable "3A" []
  = ([EvGlob Fixtures.pattern_3A],
     inr ([Fixtures.train_3A] ++ Fixtures.val_3A :: [Fixtures.test_3A])%list) /\
  Verifier.well_formed Fixtures.w_unreadable [Fixtures.train_3A] /\
  Verifier.readlines Fixtures.w_unreadable Fixtures.val_3A = None /\
  exists tr,
    Verifier.verify Fixtures.w_unreadable "3A" []
    = (tr, inl (OSError Fixtures.val_3A)) /\
    Verifier.opened tr = [Fixtures.train_3A; Fixtures.val_3A] /\
    Verifier.checked tr
    = ["data/COVIDx_CT-3A/a.png"; "data/COVIDx_CT-3A/z.png"] /\
    Verifier.printed tr = ["Missing z.png"].
Proof.
  assert (Hwf : Verifier.well_formed Fixtures.w_unreadable [Fixtures.train_3A])
    by (apply well_formedb_sound; reflexivity).
  split; [reflexivity|]. split; [exact Hwf|]. split; [reflexivity|].
  exact (unreadable_split_file_aborts Fixtures.w_unreadable "3A" _
           [Fixtures.train_3A] Fixtures.val_3A [Fixtures.test_3A]
           eq_refl Hwf eq_refl).
Defined.

(** X8. On well-formed split files the final variables satisfy: [count] never
    exceeds [total]; the run is reported complete exactly when
    [count = total]; and the number of "Missing" lines printed is
    [total - count] (the report being the one further line). *)
Theorem tally_invariants (w : Verifier.world) (V : string)
    (tr0 : Verifier.trace) (files : list string) :
  Verifier.get_split_files w V [] = (tr0, inr files) ->
  Verifier.well_formed w files ->
  exists tr t,
    Verifier.verify w V [] = (tr, inr t) /\
    Verifier.count t <= Verifier.total t /\
    (Verifier.incomplete t = false <-> Verifier.count t = Verifier.total t) /\
    length (Verifier.printed tr) = Verifier.total t - Verifier.count t + 1.
Proof.
  intros Hd Hwf.
  destruct (verify_returns w V tr0 files Hd Hwf) as (tr & Hv & _ & _ & Hp).
  destruct (tally_after_zero w V (Verifier.listed w files)) as (H1 & H2 & H3).
  set (t := Verifier.tally_after w V (Verifier.listed w files)
              Verifier.tally_zero) in *.
  pose proof (filter_split_length (Verifier.present w V)
                (Verifier.listed w files)) as Hsplit.
  exists tr, t. split; [exact Hv|]. rewrite H1, H2, H3. split; [|split].
  - apply filter_length_le.
  - apply existsb_negb_filter.
  - rewrite Hp, length_app, length_map. unfold Verifier.absent. cbn. lia.
Qed.

Lemma tally_invariants_witness :
  Verifier.get_split_files Fixtures.w_gap "3A" []
  = ([EvGlob Fixtures.pattern_3A],
     inr [Fixtures.train_3A; Fixtures.val_3A; Fixtures.test_3A]) /\
  Verifier.well_formed Fixtures.w_gap
    [Fixtures.train_3A; Fixtures.val_3A; Fixtures.test_3A] /\
  Verifier.verify Fixtures.w_gap "3A" []
  = ([EvGlob Fixtures.pattern_3A; EvOpen Fixtures.train_3A;
      EvExists "data/COVIDx_CT-3A/a.png"; EvExists "data/COVIDx_CT-3A/x.png";
      EvPrint "Missing x.png"; EvOpen Fixtures.val_3A;
      EvExists "data/COVIDx_CT-3A/b.png"; EvOpen Fixtures.test_3A;
      EvExists "data/COVIDx_CT-3A/y.png"; EvPrint "Missing y.png";
      EvPrint "2/4 files are missing, dataset is incomplete!"],
     inr {| Verifier.count := 2; Verifier.total := 4;
            Verifier.incomplete := true |}) /\
  exists tr t,
    Verifier.verify Fixtures.w_gap "3A" [] = (tr, inr t) /\
    Verifier.count t <= Verifier.total t /\
    (Verifier.incomplete t = false <-> Verifier.count t = Verifier.total t) /\
    length (Verifier.printed tr) = Verifier.total t - Verifier.count t + 1.
Proof.
  assert (Hwf : Verifier.well_formed Fixtures.w_gap
                  [Fixtures.train_3A; Fixtures.val_3A; Fixtures.test_3A])
    by (apply well_formedb_sound; reflexivity).
  split; [reflexivity|]. split; [exact Hwf|]. split; [reflexivity|].
  exact (tally_invariants Fixtures.w_gap "3A" _ _ eq_refl Hwf).
Defined.

(** ** The class field and extra fields of a line are not used *)

Section SameFilenames.
Import Verifier.

Variables w1 w2 : world.
Variable V : string.
Hypothesis same_exists : forall p, path_exists w1 p = path_exists w2 p.

Lemma present_same f : present w1 V f = present w2 V f.
Proof. apply same_exists. Qed.

Lemma line_events_same f : line_events w1 V f = line_events w2 V f.
Proof. unfold line_events. now rewrite present_same. Qed.

Lemma tally_after_same l t : tally_after w1 V l t = tally_after w2 V l t.
Proof.
  unfold tally_after.
  rewrite (filter_ext _ _ present_same l).
  replace (existsb (absent w1 V) l) with (existsb (absent w2 V) l);
    [reflexivity|].
  induction l as [|x l IH]; [reflexivity|].
  cbn. unfold absent at 1 3. now rewrite present_same, IH.
Qed.

Lemma file_events_same files :
  (forall f, In f files ->
             map fname_of (lines_of w1 f) = map fname_of (lines_of w2 f)) ->
  flat_map (file_events w1 V) files = flat_map (file_events w2 V) files
  /\ listed w1 files = listed w2 files.
Proof.
  induction files as [|f files IH]; intros H; [split; reflexivity|].
  destruct IH as [IH1 IH2]; [intros g Hg; apply H; now right|].
  unfold listed in *. cbn [flat_map]. rewrite IH1, IH2.
  unfold file_events. rewrite (H f (or_introl eq_refl)).
  rewrite (flat_map_ext _ _ line_events_same). split; reflexivity.
Qed.

End SameFilenames.

Lemma discovery_reads_glob_only (w1 w2 : Verifier.world) (V : string) tr :
  (forall p, Verifier.glob w1 p = Verifier.glob w2 p) ->
  Verifier.get_split_files w1 V tr = Verifier.get_split_files w2 V tr.
Proof.
  intros H. unfold Verifier.get_split_files, Verifier.glob_glob, lift.
  destruct (index_first V) as [e|major]; [reflexivity|].
  unfold bind, Verifier.emit, modify, ret. now rewrite !H.
Qed.

(** X9. The outcome of the verification depends on the split files only through
    the first token of each line: two file systems with the same glob
    answers and the same existing paths, whose split files name the same
    filenames line by line, give the same trace and the same result,
    whatever the class labels and extra fields are. *)
Theorem class_field_is_ignored (w1 w2 : Verifier.world) (V : string)
    (tr0 : Verifier.trace) (files : list string) :
  (forall p, Verifier.glob w1 p = Verifier.glob w2 p) ->
  (forall p, Verifier.path_exists w1 p = Verifier.path_exists w2 p) ->
  Verifier.get_split_files w1 V [] = (tr0, inr files) ->
  Verifier.well_formed w1 files ->
  Verifier.well_formed w2 files ->
  (forall f, In f files ->
             map Verifier.fname_of (Verifier.lines_of w1 f)
             = map Verifier.fname_of (Verifier.lines_of w2 f)) ->
  Verifier.verify w1 V [] = Verifier.verify w2 V [].
Proof.
  intros Hg He Hd Hwf1 Hwf2 Hnames.
  assert (Hd2 : Verifier.get_split_files w2 V [] = (tr0, inr files))
    by now rewrite <- (discovery_reads_glob_only w1 w2 V [] Hg).
  rewrite (verify_after_discovery w1 V tr0 files Hd).
  rewrite (verify_after_discovery w2 V tr0 files Hd2).
  rewrite (verification_returns w1 V files tr0 Hwf1).
  rewrite (verification_returns w2 V files tr0 Hwf2).
  destruct (file_events_same w1 w2 V He files Hnames) as [H1 H2].
  now rewrite H1, H2, (tally_after_same w1 w2 V He).
Qed.

Lemma class_field_is_ignored_witness :
  (forall p, Verifier.glob Fixtures.w_full p
             = Verifier.glob Fixtures.w_full_relabelled p) /\
  (forall p, Verifier.path_exists Fixtures.w_full p
             = Verifier.path_exists Fixtures.w_full_relabelled p) /\
  Verifier.get_split_files Fixtures.w_full "3A" []
  = ([EvGlob Fixtures.pattern_3A],
     inr [Fixtures.train_3A; Fixtures.val_3A; Fixtures.test_3A]) /\
  Verifier.well_formed Fixtures.w_full
    [Fixtures.train_3A; Fixtures.val_3A; Fixtures.test_3A] /\
  Verifier.well_formed Fixtures.w_full_relabelled
    [Fixtures.train_3A; Fixtures.val_3A; Fixtures.test_3A] /\
  (forall f, In f [Fixtures.train_3A; Fixtures.val_3A; Fixtures.test_3A] ->
             map Verifier.fname_of (Verifier.lines_of Fixtures.w_full f)
             = map Verifier.fname_of
                   (Verifier.lines_of Fixtures.w_full_relabelled f)) /\
  Verifier.readlines Fixtures.w_full Fixtures.train_3A
  <> Verifier.readlines Fixtures.w_full_relabelled Fixtures.train_3A /\
  Verifier.verify Fixtures.w_full "3A" []
  = Verifier.verify Fixtures.w_full_relabelled "3A" [].
Proof.
  assert (Hwf1 : Verifier.well_formed Fixtures.w_full
                   [Fixtures.train_3A; Fixtures.val_3A; Fixtures.test_3A])
    by (apply well_formedb_sound; reflexivity).
  assert (Hwf2 : Verifier.well_formed Fixtures.w_full_relabelled
                   [Fixtures.train_3A; Fixtures.val_3A; Fixtures.test_3A])
    by (apply well_formedb_sound; reflexivity).
  assert (Hn : forall f,
             In f [Fixtures.train_3A; Fixtures.val_3A; Fixtures.test_3A] ->
             map Verifier.fname_of (Verifier.lines_of Fixtures.w_full f)
             = map Verifier.fname_of
                   (Verifier.lines_of Fixtures.w_full_relabelled f)).
  { intros f [<-|[<-|[<-|[]]]]; reflexivity. }
  split; [reflexivity|]. split; [reflexivity|]. split; [reflexivity|].
  split; [exact Hwf1|]. split; [exact Hwf2|]. split; [exact Hn|].
  split; [discriminate|].
  exact (class_field_is_ignored Fixtures.w_full Fixtures.w_full_relabelled
           "3A" _ _ (fun p => eq_refl) (fun p => eq_refl) eq_refl
           Hwf1 Hwf2 Hn).
Defined.

(** ** More on the split file discovery *)

(** X10. Whenever the discovery returns, the version tag is not empty, the list
    returned is not empty and starts with the requested version's files in
    glob order; what follows them comes from the "A" variant's glob; and
    when exactly three files were found nothing follows and the "A" variant
    is not even globbed. *)
Theorem discovery_returns_requested_files_first (w : Verifier.world)
    (V : string) (tr : Verifier.trace) (files : list string) :
  Verifier.get_split_files w V [] = (tr, inr files) ->
  exists major added,
    index_first V = inr major /\
    Verifier.glob w (Verifier.split_pattern major V) <> [] /\
    files = (Verifier.glob w (Verifier.split_pattern major V) ++ added)%list /\
    incl added
         (Verifier.glob w (Verifier.split_pattern major (str1 major ++ "A"))) /\
    (length (Verifier.glob w (Verifier.split_pattern major V)) = 3 ->
     added = [] /\ tr = [EvGlob (Verifier.split_pattern major V)]).
Proof.
  intros H. destruct V as [|major rest] eqn:EV; [cbv in H; discriminate H|].
  rewrite <- EV in *.
  assert (Hm : index_first V = inr major) by now rewrite EV.
  destruct (Verifier.glob w (Verifier.split_pattern major V)) as [|f l] eqn:E.
  - rewrite (discovery_none w V major Hm [] E) in H. discriminate H.
  - assert (Hne : Verifier.glob w (Verifier.split_pattern major V) <> [])
      by (rewrite E; discriminate).
    destruct (Nat.eq_dec (length (Verifier.glob w
                (Verifier.split_pattern major V))) 3) as [H3|H3].
    + rewrite (discovery_three w V major Hm [] H3) in H. inversion H.
      exists major, []. rewrite app_nil_r.
      repeat split; try assumption. intros x [].
    + rewrite (discovery_fallback w V major Hm [] Hne H3) in H. inversion H.
      exists major, (Verifier.supplement w major
                       (Verifier.glob w (Verifier.split_pattern major V))).
      repeat split; try assumption; try contradiction.
      intros x Hx. unfold Verifier.supplement in Hx.
      apply filter_In in Hx. exact (proj1 Hx).
Qed.

Lemma discovery_returns_requested_files_first_witness :
  Verifier.get_split_files Fixtures.w_fallback "3B" []
  = ([EvGlob Fixtures.pattern_3B; EvGlob Fixtures.pattern_3A],
     inr [Fixtures.train_3B; Fixtures.val_3B; Fixtures.test_3A]) /\
  exists major added,
    index_first "3B" = inr major /\
    Verifier.glob Fixtures.w_fallback (Verifier.split_pattern major "3B") <> [] /\
    [Fixtures.train_3B; Fixtures.val_3B; Fixtures.test_3A]
    = (Verifier.glob Fixtures.w_fallback (Verifier.split_pattern major "3B")
         ++ added)%list /\
    incl added
         (Verifier.glob Fixtures.w_fallback
            (Verifier.split_pattern major (str1 major ++ "A"))) /\
    (length (Verifier.glob Fixtures.w_fallback
               (Verifier.split_pattern major "3B")) = 3 ->
     added = [] /\
     [EvGlob Fixtures.pattern_3B; EvGlob Fixtures.pattern_3A]
     = [EvGlob (Verifier.split_pattern major "3B")]).
Proof.
  split; [reflexivity|].
  exact (discovery_returns_requested_files_first Fixtures.w_fallback "3B"
           _ _ eq_refl).
Defined.

(** X11. When the requested version is itself the "A" variant, the fallback adds
    nothing: the discovery returns exactly the files found, however many
    (one, two, four, ...) they are. *)
Theorem A_variant_fallback_adds_nothing (w : Verifier.world) (major : ascii) :
  Verifier.glob w (Verifier.split_pattern major (str1 major ++ "A")) <> [] ->
  exists tr,
    Verifier.get_split_files w (str1 major ++ "A") []
    = (tr, inr (Verifier.glob w
                  (Verifier.split_pattern major (str1 major ++ "A")))).
Proof.
  intros Hne. set (V := str1 major ++ "A") in *.
  assert (Hm : index_first V = inr major) by reflexivity.
  destruct (Nat.eq_dec (length (Verifier.glob w
              (Verifier.split_pattern major V))) 3) as [H3|H3].
  - eexists. apply (discovery_three w V major Hm [] H3).
  - eexists. rewrite (discovery_fallback w V major Hm [] Hne H3).
    f_equal. f_equal. fold V.
    replace (Verifier.supplement w major
               (Verifier.glob w (Verifier.split_pattern major V)))
      with (@nil string); [now rewrite app_nil_r|].
    symmetry. unfold Verifier.supplement. fold V. apply filter_none.
    intros x Hx. apply negb_false_iff. unfold Verifier.set_mem.
    apply existsb_exists. exists (Verifier.partition_of x).
    split; [now apply in_map|apply String.eqb_refl].
Qed.

Lemma A_variant_fallback_adds_nothing_witness :
  Verifier.glob Fixtures.w_two_A (Verifier.split_pattern "3" (str1 "3" ++ "A"))
  <> [] /\
  Verifier.get_split_files Fixtures.w_two_A "3A" []
  = ([EvGlob Fixtures.pattern_3A; EvGlob Fixtures.pattern_3A],
     inr [Fixtures.train_3A; Fixtures.val_3A]) /\
  exists tr,
    Verifier.get_split_files Fixtures.w_two_A (str1 "3" ++ "A") []
    = (tr, inr (Verifier.glob Fixtures.w_two_A
                  (Verifier.split_pattern "3" (str1 "3" ++ "A")))).
Proof.
  assert (Hne : Verifier.glob Fixtures.w_two_A
                  (Verifier.split_pattern "3" (str1 "3" ++ "A")) <> [])
    by discriminate.
  split; [exact Hne|]. split; [reflexivity|].
  exact (A_variant_fallback_adds_nothing Fixtures.w_two_A "3"%char Hne).
Defined.

(** ** The string operations of the loop body *)

Lemma string_of_list_ascii_snoc (l : list ascii) (c : ascii) :
  string_of_list_ascii (l ++ [c]) = string_of_list_ascii l ++ str1 c.
Proof. induction l as [|d l IH]; cbn; [reflexivity|now rewrite IH]. Qed.

Lemma split_trailing_newline (s cur : string) :
  split_ws_from cur (s ++ str1 newline) = split_ws_from cur s.
Proof.
  revert cur. induction s as [|c s IH]; intros cur.
  - cbn. destruct (String.eqb cur ""); reflexivity.
  - cbn [append split_ws_from].
    destruct (is_space c); [destruct (String.eqb cur "")|]; now rewrite IH.
Qed.

Lemma split_trailing_newlines (l : list ascii) (k : nat) :
  split_ws (string_of_list_ascii (l ++ repeat newline k))
  = split_ws (string_of_list_ascii l).
Proof.
  induction k as [|k IH].
  - now rewrite app_nil_r.
  - cbn [repeat]. rewrite repeat_cons, app_assoc, string_of_list_ascii_snoc.
    unfold split_ws in *. now rewrite split_trailing_newline.
Qed.

Lemma split_leading_newlines (l : list ascii) :
  split_ws (string_of_list_ascii (lstrip_nl l))
  = split_ws (string_of_list_ascii l).
Proof.
  induction l as [|c l IH]; [reflexivity|].
  cbn [lstrip_nl]. destruct (Ascii.eqb_spec c newline) as [->|Hc].
  - rewrite IH. reflexivity.
  - reflexivity.
Qed.

Lemma lstrip_nl_drops_newlines (l : list ascii) :
  exists k, l = (repeat newline k ++ lstrip_nl l)%list.
Proof.
  induction l as [|c l [k Hk]]; [now exists 0|].
  cbn [lstrip_nl]. destruct (Ascii.eqb_spec c newline) as [->|Hc].
  - exists (S k). cbn [repeat app]. now rewrite <- Hk.
  - now exists 0.
Qed.

Lemma has_space_app (a b : string) :
  has_space (a ++ b) = has_space a || has_space b.
Proof.
  induction a as [|c a IH]; [reflexivity|].
  cbn. now rewrite IH, orb_assoc.
Qed.

Lemma split_tokens_nonblank (s cur : string) :
  has_space cur = false ->
  Forall (fun t => t <> "" /\ has_space t = false) (split_ws_from cur s).
Proof.
  revert cur. induction s as [|c s IH]; intros cur Hcur.
  - cbn. destruct (String.eqb_spec cur ""); constructor; [|constructor].
    now split.
  - cbn [split_ws_from]. destruct (is_space c) eqn:Ec.
    + destruct (String.eqb_spec cur "").
      * now apply IH.
      * constructor; [now split|now apply IH].
    + apply IH. rewrite has_space_app, Hcur. cbn. now rewrite Ec.
Qed.

Lemma has_char_app (c : ascii) (a b : string) :
  has_char c (a ++ b) = has_char c a || has_char c b.
Proof.
  induction a as [|d a IH]; [reflexivity|].
  cbn. now rewrite IH, orb_assoc.
Qed.

Lemma append_assoc_str (a b c : string) : (a ++ b) ++ c = a ++ (b ++ c).
Proof. induction a as [|d a IH]; cbn; [reflexivity|now rewrite IH]. Qed.

Lemma basename_without_slash (x cur : string) :
  has_char "/" x = false -> basename_from cur x = cur ++ x.
Proof.
  revert cur. induction x as [|c x IH]; intros cur H.
  - cbn. induction cur as [|d cur IHc]; cbn; [reflexivity|now rewrite <- IHc].
  - cbn in H. apply orb_false_iff in H. destruct H as [Hc Hx].
    cbn [basename_from]. rewrite Hc, (IH _ Hx).
    unfold str1. now rewrite append_assoc_str.
Qed.

Lemma basename_after_slash (d x cur : string) :
  basename_from cur (d ++ String "/" x) = basename_from "" x.
Proof.
  revert cur. induction d as [|c d IH]; intros cur.
  - reflexivity.
  - cbn [append basename_from]. destruct (Ascii.eqb c "/"); apply IH.
Qed.

Lemma split_first_at_separator (sep : ascii) (p r : string) :
  has_char sep p = false -> split_first sep (p ++ String sep r) = p.
Proof.
  induction p as [|c p IH]; intros H.
  - cbn. now rewrite Ascii.eqb_refl.
  - cbn in H. apply orb_false_iff in H. destruct H as [Hc Hp].
    cbn [append split_first]. rewrite Hc. now rewrite (IH Hp).
Qed.

Lemma index_last_app (a : string) (c : ascii) (r : string) :
  index_last (a ++ String c r) = index_last (String c r).
Proof.
  induction a as [|d a IH]; [reflexivity|].
  cbn [append]. destruct a as [|d' a']; [reflexivity|].
  exact IH.
Qed.

(** X12. Stripping the newline before splitting changes nothing: the tokens of
    [line.strip('\n').split()] are those of [line.split()]. *)
Theorem strip_before_split_is_redundant (line : string) :
  split_ws (strip_nl line) = split_ws line /\
  Verifier.fname_of line = hd "" (split_ws line).
Proof.
  assert (H : split_ws (strip_nl line) = split_ws line).
  { unfold strip_nl.
    set (l1 := lstrip_nl (list_ascii_of_string line)).
    destruct (lstrip_nl_drops_newlines (rev l1)) as [k Hk].
    assert (Hl1 : l1 = (rev (lstrip_nl (rev l1)) ++ repeat newline k)%list).
    { rewrite <- (rev_involutive l1) at 1. rewrite Hk at 1.
      now rewrite rev_app_distr, rev_repeat. }
    rewrite <- (split_trailing_newlines (rev (lstrip_nl (rev l1))) k).
    rewrite <- Hl1. unfold l1.
    now rewrite split_leading_newlines, string_of_list_ascii_of_string. }
  split; [exact H|]. unfold Verifier.fname_of. now rewrite H.
Qed.

(** X13. The filename the loop checks for a line is a token of that line: it is
    never empty and holds no whitespace character, and so is the class
    token. *)
Theorem checked_filename_is_nonblank_token (line : string) :
  Verifier.well_formed_line line ->
  Verifier.fname_of line <> "" /\
  has_space (Verifier.fname_of line) = false /\
  exists cls,
    unpack2 (firstn 2 (split_ws (strip_nl line)))
    = inr (Verifier.fname_of line, cls) /\
    cls <> "" /\ has_space cls = false.
Proof.
  intros H. unfold Verifier.well_formed_line in H. unfold Verifier.fname_of.
  pose proof (split_tokens_nonblank (strip_nl line) "" eq_refl) as Ht.
  fold (split_ws (strip_nl line)) in Ht.
  destruct (split_ws (strip_nl line)) as [|a [|b r]]; cbn in H; try lia.
  inversion Ht as [|? ? [Ha1 Ha2] Ht']. inversion Ht' as [|? ? [Hb1 Hb2] _].
  cbn. repeat split; try assumption. exists b. now repeat split.
Qed.

Lemma checked_filename_is_nonblank_token_witness :
  Verifier.well_formed_line "  c.png   0 extra" /\
  Verifier.fname_of "  c.png   0 extra" = "c.png" /\
  Verifier.fname_of "  c.png   0 extra" <> "" /\
  has_space (Verifier.fname_of "  c.png   0 extra") = false.
Proof.
  assert (H : Verifier.well_formed_line "  c.png   0 extra")
    by (unfold Verifier.well_formed_line; vm_compute; lia).
  split; [exact H|]. split; [reflexivity|].
  pose proof (checked_filename_is_nonblank_token "  c.png   0 extra" H)
    as (H1 & H2 & _).
  split; assumption.
Defined.

(** X14. For a split file named by the convention
    [<directory>/<partition>_<rest>], the partition name the fallback
    compares is [<partition>]. *)
Theorem partition_of_conventional_name (dir part rest : string) :
  has_char "/" part = false ->
  has_char "_" part = false ->
  has_char "/" rest = false ->
  Verifier.partition_of (dir ++ String "/" (part ++ String "_" rest)) = part.
Proof.
  intros Hp1 Hp2 Hr. unfold Verifier.partition_of, basename.
  rewrite basename_after_slash, basename_without_slash.
  - cbn [append]. now apply split_first_at_separator.
  - rewrite has_char_app, Hp1. cbn. exact Hr.
Qed.

Lemma partition_of_conventional_name_witness :
  has_char "/" "train" = false /\
  has_char "_" "train" = false /\
  has_char "/" "COVIDx_CT-3B.txt" = false /\
  Verifier.partition_of "splits/v3/train_COVIDx_CT-3B.txt" = "train".
Proof.
  split; [reflexivity|]. split; [reflexivity|]. split; [reflexivity|].
  exact (partition_of_conventional_name "splits/v3" "train" "COVIDx_CT-3B.txt"
           eq_refl eq_refl eq_refl).
Defined.

(** X15. Where the loop looks for a listed filename: when the version tag does
    not end with a slash, a name that does not start with a slash is looked
    up as [data/COVIDx_CT-<version>/<name>]; a name that starts with a slash
    is looked up as it is, outside the output directory. *)
Theorem checked_path_of_listed_name (V fname : string) :
  ends_with_slash V = false ->
  (starts_with_slash fname = false ->
   path_join (Verifier.OUTPUT_DIR V) fname
   = "data/COVIDx_CT-" ++ V ++ "/" ++ fname) /\
  (starts_with_slash fname = true ->
   path_join (Verifier.OUTPUT_DIR V) fname = fname).
Proof.
  intros HV. unfold path_join, Verifier.OUTPUT_DIR. split; intros Hf;
    rewrite Hf; [|reflexivity].
  assert (He : ends_with_slash ("data/COVIDx_CT-" ++ V) = false).
  { destruct V as [|c r]; [reflexivity|].
    unfold ends_with_slash in *. now rewrite index_last_app. }
  rewrite He. cbn [String.eqb append orb]. reflexivity.
Qed.

Lemma checked_path_of_listed_name_witness :
  ends_with_slash "3A" = false /\
  path_join (Verifier.OUTPUT_DIR "3A") "a.png" = "data/COVIDx_CT-3A/a.png" /\
  path_join (Verifier.OUTPUT_DIR "3A") "/tmp/a.png" = "/tmp/a.png".
Proof.
  split; [reflexivity|].
  split.
  - exact (proj1 (checked_path_of_listed_name "3A" "a.png" eq_refl) eq_refl).
  - exact (proj2 (checked_path_of_listed_name "3A" "/tmp/a.png" eq_refl)
             eq_refl).
Defined.
